(** * CCU Rounder: the calculation layer

    A shallow embedding of the calculation code of the CCU Rounder
    application (the single TypeScript source file of the repository):

    - [clampNum], the numeric parsing boundary;
    - the twelve memoised values of [useHemodynamics];
    - the drip converters [calcDose] and [calcRate], and [exampleRate].

    Modelling conventions.

    - A JavaScript number is [number]: [NaN], the two infinities, or a
      finite value.  Finite values are real numbers: the arithmetic below is
      exact, so rounding, overflow and underflow of IEEE doubles are not
      modelled, and the two zeros are identified.
    - A value of type [number | undefined] is [value], with [None] for
      [undefined].  An operand used in arithmetic goes through [Js.num],
      which is the language's ToNumber on such values ([undefined] gives
      [NaN]).
    - [Number] applied to a string is a builtin of the language.  It is a
      parameter [StringToNumber] of everything that parses text. *)

From Stdlib Require Import Reals Lra Bool String Ascii ZArith.

Open Scope R_scope.

#[local] Set Warnings "-notation-for-abbreviation".

(** ** JavaScript numbers *)

Inductive number : Type :=
| NaN
| PosInf
| NegInf
| Fin (x : R).

(** [number | undefined] *)
Definition value : Type := option number.

Definition undefined {A : Type} : option A := None.

(** What is rendered for a number: the dash placeholder, or the result of
    [toFixed], which is kept symbolic. *)
Inductive display : Type :=
| Dash
| ToFixed (x : number) (digits : nat).

(** The operators of the language on these values. *)
Module Js.

(** ToNumber on a [number | undefined]. *)
Definition num (v : value) : number :=
  match v with
  | None => NaN
  | Some n => n
  end.

Definition Rzero (x : R) : bool := if Req_dec_T x 0 then true else false.
Definition Rneg (x : R) : bool := if Rlt_dec x 0 then true else false.
Definition Rleb (x y : R) : bool := if Rle_dec x y then true else false.

Definition inf (negative : bool) : number :=
  if negative then NegInf else PosInf.

(** [Number.isFinite] *)
Definition isFinite (x : number) : bool :=
  match x with
  | Fin _ => true
  | _ => false
  end.

(** ToBoolean: [undefined], [NaN] and zero are falsy. *)
Definition truthy (v : value) : bool :=
  match v with
  | None => false
  | Some NaN => false
  | Some (Fin x) => negb (Rzero x)
  | Some _ => true
  end.

(** [!v] *)
Definition not (v : value) : bool := negb (truthy v).

(** [v == null] *)
Definition isNullish {A : Type} (v : option A) : bool :=
  match v with
  | None => true
  | Some _ => false
  end.

(** [v === n] for a number [n]. *)
Definition strictEq (v : value) (n : number) : bool :=
  match v, n with
  | Some (Fin x), Fin y => Rzero (x - y)
  | Some PosInf, PosInf => true
  | Some NegInf, NegInf => true
  | _, _ => false
  end.

Definition add (a b : number) : number :=
  match a, b with
  | NaN, _ | _, NaN => NaN
  | PosInf, NegInf | NegInf, PosInf => NaN
  | PosInf, _ | _, PosInf => PosInf
  | NegInf, _ | _, NegInf => NegInf
  | Fin x, Fin y => Fin (x + y)
  end.

Definition sub (a b : number) : number :=
  match a, b with
  | NaN, _ | _, NaN => NaN
  | PosInf, PosInf | NegInf, NegInf => NaN
  | PosInf, _ | _, NegInf => PosInf
  | NegInf, _ | _, PosInf => NegInf
  | Fin x, Fin y => Fin (x - y)
  end.

Definition mul (a b : number) : number :=
  match a, b with
  | NaN, _ | _, NaN => NaN
  | Fin x, Fin y => Fin (x * y)
  | Fin x, PosInf | PosInf, Fin x => if Rzero x then NaN else inf (Rneg x)
  | Fin x, NegInf | NegInf, Fin x => if Rzero x then NaN else inf (negb (Rneg x))
  | PosInf, PosInf | NegInf, NegInf => PosInf
  | PosInf, NegInf | NegInf, PosInf => NegInf
  end.

(** Zero is unsigned here, so a nonzero finite number divided by zero takes
    the sign of the numerator.  Every division of the program is guarded
    against a zero divisor. *)
Definition div (a b : number) : number :=
  match a, b with
  | NaN, _ | _, NaN => NaN
  | Fin x, Fin y =>
      if Rzero y then (if Rzero x then NaN else inf (Rneg x))
      else Fin (x / y)
  | Fin _, _ => Fin 0
  | PosInf, Fin y => inf (Rneg y)
  | NegInf, Fin y => inf (negb (Rneg y))
  | _, _ => NaN
  end.

(** [Math.sqrt] *)
Definition sqrt (a : number) : number :=
  match a with
  | NaN | NegInf => NaN
  | PosInf => PosInf
  | Fin x => if Rneg x then NaN else Fin (R_sqrt.sqrt x)
  end.

(** [a <= b]: every comparison with [NaN] is false. *)
Definition le (a b : number) : bool :=
  match a, b with
  | NaN, _ | _, NaN => false
  | NegInf, _ | _, PosInf => true
  | PosInf, _ | _, NegInf => false
  | Fin x, Fin y => Rleb x y
  end.

End Js.

Declare Scope js_scope.
Delimit Scope js_scope with js.
Bind Scope js_scope with number.
Infix "+" := Js.add : js_scope.
Infix "-" := Js.sub : js_scope.
Infix "*" := Js.mul : js_scope.
Infix "/" := Js.div : js_scope.
Infix "<=?" := Js.le (at level 70) : js_scope.

(** ** The parsing boundary *)

Section Parsing.

(** [Number] on a string. *)
Variable StringToNumber : string -> number.

(** [Number(n)] for [n : string | undefined]. *)
Definition Number (n : option string) : number :=
  match n with
  | None => NaN
  | Some s => StringToNumber s
  end.

Definition clampNum (n : option string) : value :=
  let x := Number n in
  if Js.isFinite x then Some x else undefined.

End Parsing.

Definition toFixedOrDash (x : value) (digits : nat) : display :=
  if Js.isFinite (Js.num x) then ToFixed (Js.num x) digits else Dash.

(** ** Hemodynamic calculations *)

Inductive Sex : Type := M | F | Unspecified.

Record HemoInputs : Type := {
  sex : Sex;
  heightCm : option string;
  weightKg : option string;
  hb : option string;
  hr : option string;
  sbp : option string;
  dbp : option string;
  cvp : option string;
  pasp : option string;
  padp : option string;
  pcwp : option string;
  sao2 : option string;
  svo2 : option string
}.

Definition defaultHemo : HemoInputs :=
  {| sex := Unspecified; heightCm := None; weightKg := None; hb := None;
     hr := None; sbp := None; dbp := None; cvp := None; pasp := None;
     padp := None; pcwp := None; sao2 := None; svo2 := None |}.

(** The object whose properties [App] reads from the result of
    [useHemodynamics]. *)
Module HemoResults.
Record t : Type := {
  bsa : value; map : value; mPAP : value; caO2 : value; cvO2 : value;
  vo2 : value; co : value; ci : value; sv : value; svr : value;
  pvrWU : value
}.
End HemoResults.

(** The result of an expression that may throw. *)
Inductive completion (A : Type) : Type :=
| Normal (a : A)
| TypeError.
Arguments Normal {A} a.
Arguments TypeError {A}.

(** [o.p]: reading a property of [undefined] throws. *)
Definition getProp {T A : Type} (o : option T) (p : T -> A) : completion A :=
  match o with
  | None => TypeError
  | Some r => Normal (p r)
  end.

Module Hemo.
Section Memos.

Variable StringToNumber : string -> number.
Variable state : HemoInputs.

Let clampNum := clampNum StringToNumber.
Let Number := Number StringToNumber.

Definition bsa : value :=
  let h := clampNum (heightCm state) in
  let w := clampNum (weightKg state) in
  if Js.not h || Js.not w then undefined
  else Some (Js.sqrt ((Js.num h * Js.num w) / Fin 3600))%js.

Definition map : value :=
  let s := clampNum (sbp state) in
  let d := clampNum (dbp state) in
  if Js.not s || Js.not d then undefined
  else Some (Js.num d + (Js.num s - Js.num d) / Fin 3)%js.

Definition mPAP : value :=
  let ps := clampNum (pasp state) in
  let pd := clampNum (padp state) in
  if Js.not ps || Js.not pd then undefined
  else Some ((Js.num ps + Fin 2 * Js.num pd) / Fin 3)%js.

Definition caO2 : value :=
  let H := clampNum (hb state) in
  let Sa := clampNum (sao2 state) in
  if Js.not H || Js.not Sa then undefined
  else Some (Fin (134 / 100) * Js.num H * (Js.num Sa / Fin 100))%js.

Definition cvO2 : value :=
  let H := clampNum (hb state) in
  let Sv := clampNum (svo2 state) in
  if Js.not H || Js.not Sv then undefined
  else Some (Fin (134 / 100) * Js.num H * (Js.num Sv / Fin 100))%js.

Definition vo2 : value :=
  if Js.not bsa then undefined
  else Some (Fin 125 * Js.num bsa)%js.

Definition co : value :=
  if Js.isNullish vo2 || Js.isNullish caO2 || Js.isNullish cvO2 then undefined
  else
    let delta := (Js.num caO2 - Js.num cvO2)%js in
    if (delta <=? Fin 0)%js then undefined
    else Some (Js.num vo2 / (delta * Fin 10))%js.

Definition ci : value :=
  if Js.isNullish co || Js.isNullish bsa || Js.strictEq bsa (Fin 0)
  then undefined
  else Some (Js.num co / Js.num bsa)%js.

Definition sv : value :=
  let C := co in
  let H := clampNum (hr state) in
  if Js.not C || Js.not H || Js.strictEq H (Fin 0) then undefined
  else Some ((Js.num C * Fin 1000) / Js.num H)%js.

Definition svr : value :=
  let M := map in
  let C := co in
  let Cv := clampNum (cvp state) in
  if Js.isNullish M || Js.isNullish C || Js.isNullish Cv
     || Js.strictEq C (Fin 0)
  then undefined
  else Some ((Fin 80 * (Js.num M - Js.num Cv)) / Js.num C)%js.

(** [pcwp] is the text of the field: the subtraction converts it with
    ToNumber, which on a string is [Number]. *)
Definition pvr : value :=
  if Js.isNullish mPAP || Js.isNullish co || Js.isNullish (pcwp state)
     || Js.strictEq co (Fin 0)
  then undefined
  else Some ((Fin 80 * (Js.num mPAP - Number (pcwp state))) / Js.num co)%js.

Definition pvrWU : value :=
  if Js.isNullish mPAP || Js.isNullish co || Js.isNullish (pcwp state)
     || Js.strictEq co (Fin 0)
  then undefined
  else Some ((Js.num mPAP - Number (pcwp state)) / Js.num co)%js.

(** The body ends after [pvrWU]: there is no [return] statement, so the
    call evaluates to [undefined]. *)
Definition useHemodynamics : option HemoResults.t :=
  let _bsa := bsa in
  let _map := map in
  let _mPAP := mPAP in
  let _caO2 := caO2 in
  let _cvO2 := cvO2 in
  let _vo2 := vo2 in
  let _co := co in
  let _ci := ci in
  let _sv := sv in
  let _svr := svr in
  let _pvr := pvr in
  let _pvrWU := pvrWU in
  undefined.

End Memos.
End Hemo.

(** The first property [App] reads from [results]. *)
Definition App_results_bsa (StringToNumber : string -> number)
    (hemo : HemoInputs) : completion value :=
  let results := Hemo.useHemodynamics StringToNumber hemo in
  getProp results HemoResults.bsa.

(** ** Drip calculator *)

Module Drip.

(** [mgInBag && volumeMl ? mgInBag / volumeMl : undefined], the first line of
    both converters. *)
Definition mgPerMl (mgInBag volumeMl : value) : value :=
  if Js.truthy mgInBag && Js.truthy volumeMl
  then Some (Js.num mgInBag / Js.num volumeMl)%js
  else undefined.

Definition calcDose (mgInBag volumeMl rateMlHr weightKg : value) : value :=
  let mgPerMl := mgPerMl mgInBag volumeMl in
  if Js.not mgPerMl || Js.not rateMlHr || Js.not weightKg
     || (Js.num mgPerMl <=? Fin 0)%js || (Js.num weightKg <=? Fin 0)%js
  then undefined
  else Some ((Js.num rateMlHr * (Js.num mgPerMl * Fin 1000))
             / (Fin 60 * Js.num weightKg))%js.

Definition calcRate (mgInBag volumeMl doseMcgKgMin weightKg : value) : value :=
  let mgPerMl := mgPerMl mgInBag volumeMl in
  if Js.not mgPerMl || Js.not doseMcgKgMin || Js.not weightKg
     || (Js.num mgPerMl <=? Fin 0)%js || (Js.num weightKg <=? Fin 0)%js
  then undefined
  else Some ((Js.num doseMcgKgMin * Fin 60 * Js.num weightKg)
             / (Js.num mgPerMl * Fin 1000))%js.

Definition exampleRate (mg vol dose kg : number) : display :=
  let r := calcRate (Some mg) (Some vol) (Some dose) (Some kg) in
  if Js.truthy r then ToFixed (Js.num r) 2 else Dash.

End Drip.

(** ** The drip form

    The text fields of the drip tab, and the two values that [App] renders
    from them. *)

Module DripInputs.
Record t : Type := {
  weightKg : option string;
  mgInBag : option string;
  volumeMl : option string;
  rateMlHr : option string;
  targetDose : option string
}.
End DripInputs.

Definition defaultDrip : DripInputs.t :=
  {| DripInputs.weightKg := None; DripInputs.mgInBag := None;
     DripInputs.volumeMl := None; DripInputs.rateMlHr := None;
     DripInputs.targetDose := None |}.



(** Two present finite values in strict order. *)
Definition value_lt (a b : value) : Prop :=
  exists x y, a = Some (Fin x) /\ b = Some (Fin y) /\ x < y.


(** A bedside record with the height and the weight fields to vary. *)
Definition bedsideSized (height weight : option string) : HemoInputs :=
  {| sex := F;
     heightCm := height; weightKg := weight;
     hb := Some "14"%string; hr := Some "80"%string;
     sbp := Some "120"%string; dbp := Some "80"%string;
     cvp := Some "8"%string;
     pasp := Some "40"%string; padp := Some "20"%string;
     pcwp := Some "12"%string;
     sao2 := Some "98"%string; svo2 := Some "70"%string |}.

(** ** Concrete inputs

    [intLiteral] stands for [Number] on the texts used in the concrete
    evaluations below.  It agrees with [Number] on the empty text (0) and on
    an optionally negated run of decimal digits, and on texts that are not
    numeric literals at all, such as ["abc"], for which both give [NaN]. *)

Definition digitOf (c : ascii) : option Z :=
  let n := Z.of_nat (nat_of_ascii c) in
  if ((48 <=? n) && (n <=? 57))%Z then Some (n - 48)%Z else None.

Fixpoint digitsValue (acc : Z) (s : string) : option Z :=
  match s with
  | EmptyString => Some acc
  | String c rest =>
      match digitOf c with
      | Some d => digitsValue (10 * acc + d)%Z rest
      | None => None
      end
  end.

Definition intLiteral (s : string) : number :=
  match s with
  | EmptyString => Fin 0
  | String "-"%char (String _ _ as digits) =>
      match digitsValue 0 digits with
      | Some z => Fin (IZR (- z))
      | None => NaN
      end
  | _ =>
      match digitsValue 0 s with
      | Some z => Fin (IZR z)
      | None => NaN
      end
  end.

(** A complete bedside record, with the three fields that the evaluations
    below vary. *)
Definition bedside (sbp' cvp' pcwp' : option string) : HemoInputs :=
  {| sex := M;
     heightCm := Some "170"%string; weightKg := Some "70"%string;
     hb := Some "14"%string; hr := Some "80"%string;
     sbp := sbp'; dbp := Some "80"%string; cvp := cvp';
     pasp := Some "40"%string; padp := Some "20"%string; pcwp := pcwp';
     sao2 := Some "98"%string; svo2 := Some "70"%string |}.

(** Absent or finite: what [clampNum] hands to the drip converters. *)
Definition optFin (x : option R) : value :=
  match x with
  | None => undefined
  | Some r => Some (Fin r)
  end.

(** ** Facts about the operators *)

Lemma Rzero_true (x : R) : Js.Rzero x = true <-> x = 0.
Proof.
  unfold Js.Rzero. destruct (Req_dec_T x 0); split; intros; congruence.
Qed.

Lemma Rzero_false (x : R) : Js.Rzero x = false <-> x <> 0.
Proof.
  unfold Js.Rzero. destruct (Req_dec_T x 0); split; intros; congruence.
Qed.

Lemma Rneg_true (x : R) : Js.Rneg x = true <-> x < 0.
Proof.
  unfold Js.Rneg. destruct (Rlt_dec x 0); split; intros; congruence.
Qed.

Lemma Rneg_false (x : R) : Js.Rneg x = false <-> 0 <= x.
Proof.
  unfold Js.Rneg. destruct (Rlt_dec x 0); split; intros; try congruence; lra.
Qed.

Lemma Rleb_true (x y : R) : Js.Rleb x y = true <-> x <= y.
Proof.
  unfold Js.Rleb. destruct (Rle_dec x y); split; intros; congruence.
Qed.

Lemma Rleb_false (x y : R) : Js.Rleb x y = false <-> y < x.
Proof.
  unfold Js.Rleb. destruct (Rle_dec x y); split; intros; try congruence; lra.
Qed.

Lemma Rzero_nonzero (x : R) : x <> 0 -> Js.Rzero x = false.
Proof. apply Rzero_false. Qed.

Lemma Rzero_0 : Js.Rzero 0 = true.
Proof. now apply Rzero_true. Qed.

Lemma Rleb_le (x y : R) : x <= y -> Js.Rleb x y = true.
Proof. apply Rleb_true. Qed.

Lemma Rleb_gt (x y : R) : y < x -> Js.Rleb x y = false.
Proof. apply Rleb_false. Qed.

Lemma Rneg_nonneg (x : R) : 0 <= x -> Js.Rneg x = false.
Proof. apply Rneg_false. Qed.

Lemma Rneg_neg (x : R) : x < 0 -> Js.Rneg x = true.
Proof. apply Rneg_true. Qed.

(** Decide the real tests that occur in a goal, given the facts at hand. *)
Ltac real_tests :=
  repeat first
    [ rewrite Rzero_0
    | rewrite Rzero_nonzero by lra
    | rewrite Rleb_le by lra
    | rewrite Rleb_gt by lra
    | rewrite Rneg_nonneg by lra
    | rewrite Rneg_neg by lra ].

Lemma not_Fin (r : R) : Js.not (Some (Fin r)) = Js.Rzero r.
Proof. unfold Js.not; simpl. now destruct (Js.Rzero r). Qed.

Lemma strictEq_Fin_0 (r : R) : Js.strictEq (Some (Fin r)) (Fin 0) = Js.Rzero r.
Proof. simpl. now replace (r - 0) with r by lra. Qed.

Section ParsingFacts.

Variable StringToNumber : string -> number.

Lemma clampNum_finite (n : option string) (x : number) :
  clampNum StringToNumber n = Some x ->
  exists r, x = Fin r /\ Number StringToNumber n = Fin r.
Proof.
  unfold clampNum.
  destruct (Number StringToNumber n) as [| | |r]; simpl; try discriminate.
  intros [= <-]. now exists r.
Qed.


Lemma clampNum_undefined (n : option string) :
  clampNum StringToNumber n = undefined <->
  Js.isFinite (Number StringToNumber n) = false.
Proof.
  unfold clampNum, undefined.
  destruct (Number StringToNumber n); simpl; split; intros; congruence.
Qed.

Lemma clampNum_of_Number (n : option string) (r : R) :
  Number StringToNumber n = Fin r -> clampNum StringToNumber n = Some (Fin r).
Proof. unfold clampNum. now intros ->. Qed.

Lemma clampNum_missing : clampNum StringToNumber None = undefined.
Proof. reflexivity. Qed.

(** A parsed field passes a truthiness guard exactly when it is a nonzero
    finite number. *)
Lemma not_clampNum_false (n : option string) :
  Js.not (clampNum StringToNumber n) = false ->
  exists r, clampNum StringToNumber n = Some (Fin r) /\ r <> 0.
Proof.
  destruct (clampNum StringToNumber n) as [x|] eqn:E.
  - destruct (clampNum_finite _ _ E) as (r & -> & _).
    rewrite not_Fin. intros H. exists r. split; [reflexivity|].
    now apply Rzero_false.
  - discriminate.
Qed.

Lemma not_clampNum_true (n : option string) :
  Js.not (clampNum StringToNumber n) = true <->
  clampNum StringToNumber n = undefined \/
  clampNum StringToNumber n = Some (Fin 0).
Proof.
  destruct (clampNum StringToNumber n) as [x|] eqn:E.
  - destruct (clampNum_finite _ _ E) as (r & -> & _).
    rewrite not_Fin, Rzero_true. split.
    + intros ->. now right.
    + intros [H|H]; [discriminate|]. now injection H.
  - split; [now left | reflexivity].
Qed.

End ParsingFacts.

(** ** The drip converters *)

Lemma mgPerMl_finite (m v : R) :
  m <> 0 -> v <> 0 ->
  Drip.mgPerMl (Some (Fin m)) (Some (Fin v)) = Some (Fin (m / v)).
Proof.
  intros Hm Hv. unfold Drip.mgPerMl; simpl. now real_tests.
Qed.

(** The concentration is defined only for a nonzero mass over a nonzero
    volume. *)
Lemma mgPerMl_defined (mg vol : option R) (c : number) :
  Drip.mgPerMl (optFin mg) (optFin vol) = Some c ->
  exists m v, mg = Some m /\ vol = Some v /\ m <> 0 /\ v <> 0 /\
              c = Fin (m / v).
Proof.
  destruct mg as [m|], vol as [v|]; unfold Drip.mgPerMl; simpl;
    try discriminate.
  - destruct (Js.Rzero m) eqn:Em; simpl; [discriminate|].
    destruct (Js.Rzero v) eqn:Ev; simpl; [discriminate|].
    intros [= <-]. exists m, v. now rewrite <- !Rzero_false.
  - destruct (Js.Rzero m); discriminate.
Qed.

Lemma calcDose_no_concentration (mg vol x w : value) :
  Drip.mgPerMl mg vol = undefined \/
  (exists c, Drip.mgPerMl mg vol = Some (Fin c) /\ c <= 0) ->
  Drip.calcDose mg vol x w = undefined.
Proof.
  unfold Drip.calcDose. intros [-> | (c & -> & Hc)]; [reflexivity|].
  rewrite not_Fin; simpl. rewrite (Rleb_le c 0 Hc).
  now destruct (Js.Rzero c), (Js.not x), (Js.not w).
Qed.

Lemma calcDose_guarded (mg vol x w : value) :
  Js.not x = true \/ Js.not w = true \/ (Js.num w <=? Fin 0)%js = true ->
  Drip.calcDose mg vol x w = undefined.
Proof.
  unfold Drip.calcDose. intros [-> | [-> | ->]];
    now rewrite ?orb_true_r.
Qed.

Lemma calcRate_no_concentration (mg vol x w : value) :
  Drip.mgPerMl mg vol = undefined \/
  (exists c, Drip.mgPerMl mg vol = Some (Fin c) /\ c <= 0) ->
  Drip.calcRate mg vol x w = undefined.
Proof.
  unfold Drip.calcRate. intros [-> | (c & -> & Hc)]; [reflexivity|].
  rewrite not_Fin; simpl. rewrite (Rleb_le c 0 Hc).
  now destruct (Js.Rzero c), (Js.not x), (Js.not w).
Qed.

(** The concentration of a bag, when one of the two fields is missing or zero
    or the quotient is not positive. *)
Lemma mgPerMl_invalid (mg vol : option R) :
  mg = None \/ vol = None \/ vol = Some 0 \/
  (exists m v, mg = Some m /\ vol = Some v /\ m / v <= 0) ->
  Drip.mgPerMl (optFin mg) (optFin vol) = undefined \/
  (exists c, Drip.mgPerMl (optFin mg) (optFin vol) = Some (Fin c) /\ c <= 0).
Proof.
  destruct (Drip.mgPerMl (optFin mg) (optFin vol)) as [c|] eqn:E;
    [|now left].
  apply mgPerMl_defined in E as (m & v & -> & -> & Hm & Hv & ->).
  intros [H | [H | [H | (m' & v' & H1 & H2 & Hc)]]]; try discriminate.
  - now injection H.
  - injection H1 as <-. injection H2 as <-. right. now exists (m / v).
Qed.

Lemma calcDose_finite (m v r k : R) :
  v <> 0 -> r <> 0 -> 0 < k -> 0 < m / v ->
  Drip.calcDose (Some (Fin m)) (Some (Fin v)) (Some (Fin r)) (Some (Fin k)) =
  Some (Fin (r * (m / v * 1000) / (60 * k))).
Proof.
  intros Hv Hr Hk Hc.
  assert (Hm : m <> 0).
  { intros ->. unfold Rdiv in Hc. rewrite Rmult_0_l in Hc. lra. }
  unfold Drip.calcDose. rewrite (mgPerMl_finite m v Hm Hv).
  set (c := m / v) in *. rewrite !not_Fin; simpl. now real_tests.
Qed.

Lemma calcRate_finite (m v d k : R) :
  v <> 0 -> d <> 0 -> 0 < k -> 0 < m / v ->
  Drip.calcRate (Some (Fin m)) (Some (Fin v)) (Some (Fin d)) (Some (Fin k)) =
  Some (Fin (d * 60 * k / (m / v * 1000))).
Proof.
  intros Hv Hd Hk Hc.
  assert (Hm : m <> 0).
  { intros ->. unfold Rdiv in Hc. rewrite Rmult_0_l in Hc. lra. }
  unfold Drip.calcRate. rewrite (mgPerMl_finite m v Hm Hv).
  set (c := m / v) in *. rewrite !not_Fin; simpl. now real_tests.
Qed.

Lemma Rdiv_pos (a b : R) : 0 < a -> 0 < b -> 0 < a / b.
Proof.
  intros Ha Hb. apply Rmult_lt_0_compat; [assumption|].
  now apply Rinv_0_lt_compat.
Qed.

(** C1.  With a positive drug mass, diluent volume, weight and infusion
    rate, the dose that [calcDose] gives for the rate is turned back into
    that rate by [calcRate] on the same bag and weight. *)
Theorem calcRate_calcDose_round_trip (mg vol w rate : R) :
  0 < mg -> 0 < vol -> 0 < w -> 0 < rate ->
  Drip.calcRate (Some (Fin mg)) (Some (Fin vol))
    (Drip.calcDose (Some (Fin mg)) (Some (Fin vol)) (Some (Fin rate))
       (Some (Fin w)))
    (Some (Fin w))
  = Some (Fin rate).
Proof.
  intros Hmg Hvol Hw Hrate.
  pose proof (Rdiv_pos mg vol Hmg Hvol) as Hc.
  rewrite calcDose_finite by lra.
  set (c := mg / vol) in *.
  assert (Hd : 0 < rate * (c * 1000) / (60 * w)).
  { apply Rdiv_pos; [|lra]. apply Rmult_lt_0_compat; lra. }
  fold c. rewrite calcRate_finite by (fold c; lra).
  fold c. f_equal. f_equal. field. lra.
Qed.

Lemma calcRate_calcDose_round_trip_witness :
  Drip.calcRate (Some (Fin 4)) (Some (Fin 250))
    (Drip.calcDose (Some (Fin 4)) (Some (Fin 250)) (Some (Fin 10))
       (Some (Fin 70)))
    (Some (Fin 70))
  = Some (Fin 10).
Proof. apply calcRate_calcDose_round_trip; lra. Defined.

(** C6, as stated, fails: every required input is present, the weight and
    the concentration are positive, and the rate is 0, which the guard
    [!rateMlHr] takes for a missing rate.  The result is absent, not 0. *)
Lemma calcDose_zero_rate_absent :
  0 < 70 /\ 0 < 4 / 250 /\
  Drip.calcDose (Some (Fin 4)) (Some (Fin 250)) (Some (Fin 0)) (Some (Fin 70))
    = undefined /\
  Drip.calcDose (Some (Fin 4)) (Some (Fin 250)) (Some (Fin 0)) (Some (Fin 70))
    <> Some (Fin (0 * (4 / 250) * 1000 / (60 * 70))).
Proof.
  assert (E : Drip.calcDose (Some (Fin 4)) (Some (Fin 250)) (Some (Fin 0))
                (Some (Fin 70)) = undefined).
  { unfold Drip.calcDose. rewrite mgPerMl_finite by lra.
    rewrite !not_Fin. real_tests. now destruct (Js.Rzero (4 / 250)). }
  rewrite E. repeat split; try lra. discriminate.
Qed.

(** C6, amended.  For inputs that are each absent or finite: when all four
    are present, the rate is not zero, the weight is positive and the
    concentration (mass over a nonzero volume) is positive, [calcDose] is
    present and equals rate * concentration * 1000 / (60 * weight); when an
    input is absent, or the weight is not positive, or the rate is zero, or
    the volume is zero, or the concentration is not positive, it is absent. *)
Theorem calcDose_cases (mg vol rate w : option R) :
  (forall m v r k,
      mg = Some m -> vol = Some v -> rate = Some r -> w = Some k ->
      v <> 0 -> r <> 0 -> 0 < k -> 0 < m / v ->
      Drip.calcDose (optFin mg) (optFin vol) (optFin rate) (optFin w)
      = Some (Fin (r * (m / v) * 1000 / (60 * k)))) /\
  (mg = None \/ vol = None \/ rate = None \/ w = None \/
   (exists k, w = Some k /\ k <= 0) \/ rate = Some 0 \/ vol = Some 0 \/
   (exists m v, mg = Some m /\ vol = Some v /\ m / v <= 0) ->
   Drip.calcDose (optFin mg) (optFin vol) (optFin rate) (optFin w)
   = undefined).
Proof.
  split.
  - intros m v r k -> -> -> -> Hv Hr Hk Hc. simpl.
    rewrite calcDose_finite by assumption. f_equal. f_equal.
    unfold Rdiv. ring.
  - intros H.
    destruct (Drip.mgPerMl (optFin mg) (optFin vol)) as [c|] eqn:E.
    2:{ apply calcDose_no_concentration. now left. }
    pose proof E as E'.
    apply mgPerMl_defined in E' as (m & v & -> & -> & Hm & Hv & ->).
    destruct (Rle_dec (m / v) 0) as [Hc|Hc].
    { apply calcDose_no_concentration. right. now exists (m / v). }
    destruct H as [H|[H|[H|[H|[(k & -> & Hk)|[H|[H|(m' & v' & H1 & H2 & H3)]]]]]]];
      try discriminate; subst.
    + apply calcDose_guarded. now left.
    + apply calcDose_guarded. now right; left.
    + apply calcDose_guarded. do 2 right. now apply Rleb_le.
    + apply calcDose_guarded. left. simpl. now rewrite not_Fin, Rzero_0.
    + now injection H.
    + injection H1 as <-. injection H2 as <-. contradiction.
Qed.

Lemma calcDose_cases_witness :
  Drip.calcDose (Some (Fin 4)) (Some (Fin 250)) (Some (Fin 10)) (Some (Fin 70))
    = Some (Fin (10 * (4 / 250) * 1000 / (60 * 70))) /\
  Drip.calcDose (Some (Fin 4)) (Some (Fin 250)) (Some (Fin 0)) (Some (Fin 70))
    = undefined.
Proof.
  split.
  - apply (calcDose_cases (Some 4) (Some 250) (Some 10) (Some 70));
      try reflexivity; lra.
  - apply (calcDose_cases (Some 4) (Some 250) (Some 0) (Some 70)).
    do 5 right. now left.
Defined.

(** C8, as stated, fails: with a drug mass of -4 and a diluent volume of
    -250 the volume is not positive, the concentration is defined (and
    positive), and both converters return a number. *)
Lemma negative_volume_present :
  -250 <= 0 /\
  Drip.mgPerMl (Some (Fin (-4))) (Some (Fin (-250)))
    = Some (Fin (-4 / -250)) /\
  Drip.calcDose (Some (Fin (-4))) (Some (Fin (-250))) (Some (Fin 10))
    (Some (Fin 70)) <> undefined /\
  Drip.calcRate (Some (Fin (-4))) (Some (Fin (-250))) (Some (Fin (3 / 10)))
    (Some (Fin 70)) <> undefined.
Proof.
  split; [lra|]. split; [apply mgPerMl_finite; lra|].
  assert (0 < -4 / -250) by lra.
  split.
  - rewrite calcDose_finite by lra. discriminate.
  - rewrite calcRate_finite by lra. discriminate.
Qed.

(** C8, amended.  For a drug mass and a diluent volume that are each absent
    or finite: the concentration is defined only if both are present and
    not zero; when one of them is absent, or the volume is zero, or the
    concentration is not positive, both converters return absent whatever
    the other inputs; this covers every volume that is not positive taken
    with a mass that is not negative. *)
Theorem concentration_guard (mg vol : option R) :
  (forall c, Drip.mgPerMl (optFin mg) (optFin vol) = Some c ->
     exists m v, mg = Some m /\ vol = Some v /\ m <> 0 /\ v <> 0 /\
                 c = Fin (m / v)) /\
  (mg = None \/ vol = None \/ vol = Some 0 \/
   (exists m v, mg = Some m /\ vol = Some v /\ m / v <= 0) ->
   forall x w : value,
     Drip.calcDose (optFin mg) (optFin vol) x w = undefined /\
     Drip.calcRate (optFin mg) (optFin vol) x w = undefined) /\
  (forall m v, mg = Some m -> vol = Some v -> v <= 0 -> 0 <= m ->
   forall x w : value,
     Drip.calcDose (optFin mg) (optFin vol) x w = undefined /\
     Drip.calcRate (optFin mg) (optFin vol) x w = undefined).
Proof.
  assert (G : mg = None \/ vol = None \/ vol = Some 0 \/
              (exists m v, mg = Some m /\ vol = Some v /\ m / v <= 0) ->
              forall x w : value,
                Drip.calcDose (optFin mg) (optFin vol) x w = undefined /\
                Drip.calcRate (optFin mg) (optFin vol) x w = undefined).
  { intros H x w. apply mgPerMl_invalid in H.
    split; [now apply calcDose_no_concentration
           |now apply calcRate_no_concentration]. }
  split; [apply mgPerMl_defined|]. split; [exact G|].
  intros m v Hm Hv Hle Hge. apply G.
  destruct (Req_dec_T v 0) as [->|Hnz]; [now do 2 right; left|].
  do 3 right. exists m, v. repeat split; try assumption.
  assert (0 < / - v) by (apply Rinv_0_lt_compat; lra).
  replace (m / v) with (- (m * / - v)) by (field; lra).
  assert (0 <= m * / - v) by (apply Rmult_le_pos; lra). lra.
Qed.

Lemma concentration_guard_witness :
  Drip.calcDose (Some (Fin 4)) (Some (Fin (-250))) (Some (Fin 10))
    (Some (Fin 70)) = undefined /\
  Drip.calcRate (Some (Fin 4)) (Some (Fin (-250))) (Some (Fin 10))
    (Some (Fin 70)) = undefined.
Proof.
  apply (proj2 (proj2 (concentration_guard (Some 4) (Some (-250)))) 4 (-250));
    try reflexivity; lra.
Defined.

(** C9.  Four milligrams in 250 mL, a target dose of 0.3 mcg/kg/min and a
    weight of 70 kg: [calcRate] returns 78.75 mL/hr, which [exampleRate]
    hands to [toFixed] with two digits. *)
Theorem calcRate_worked_scenario :
  Drip.calcRate (Some (Fin 4)) (Some (Fin 250)) (Some (Fin 0.3))
    (Some (Fin 70)) = Some (Fin 78.75) /\
  0.3 * 60 * 70 / (0.016 * 1000) = 78.75 /\
  4 / 250 = 0.016 /\
  Drip.exampleRate (Fin 4) (Fin 250) (Fin 0.3) (Fin 70)
    = ToFixed (Fin 78.75) 2.
Proof.
  assert (E : Drip.calcRate (Some (Fin 4)) (Some (Fin 250)) (Some (Fin 0.3))
                (Some (Fin 70)) = Some (Fin 78.75)).
  { rewrite calcRate_finite by lra. f_equal. f_equal. lra. }
  repeat split; try assumption; try lra.
  unfold Drip.exampleRate. rewrite E. simpl. now real_tests.
Qed.

(** ** The hemodynamic memos *)

(** Split a hypothesis [(if c then undefined else Some e) = Some v] on its
    guard. *)
Ltac open_guard H :=
  match type of H with
  | (if ?c then _ else _) = _ =>
      let G := fresh "G" in
      destruct c eqn:G; [discriminate H|]
  end.

Section HemoFacts.

Variable StringToNumber : string -> number.
Variable state : HemoInputs.

Local Notation clampNum := (clampNum StringToNumber).
Local Notation Number := (Number StringToNumber).
Local Notation bsa := (Hemo.bsa StringToNumber state).
Local Notation map := (Hemo.map StringToNumber state).
Local Notation mPAP := (Hemo.mPAP StringToNumber state).
Local Notation caO2 := (Hemo.caO2 StringToNumber state).
Local Notation cvO2 := (Hemo.cvO2 StringToNumber state).
Local Notation vo2 := (Hemo.vo2 StringToNumber state).
Local Notation co := (Hemo.co StringToNumber state).
Local Notation ci := (Hemo.ci StringToNumber state).
Local Notation sv := (Hemo.sv StringToNumber state).
Local Notation svr := (Hemo.svr StringToNumber state).
Local Notation pvr := (Hemo.pvr StringToNumber state).
Local Notation pvrWU := (Hemo.pvrWU StringToNumber state).

(** Both fields of a two-field memo pass its guard exactly when both are
    nonzero finite numbers. *)
Lemma two_fields_pass (a b : option string) :
  Js.not (clampNum a) || Js.not (clampNum b) = false ->
  exists x y, clampNum a = Some (Fin x) /\ clampNum b = Some (Fin y) /\
              x <> 0 /\ y <> 0.
Proof.
  intros H. apply orb_false_iff in H as [Ha Hb].
  apply not_clampNum_false in Ha as (x & Ea & Hx).
  apply not_clampNum_false in Hb as (y & Eb & Hy).
  now exists x, y.
Qed.

Lemma two_fields_fail (a b : option string) :
  Js.not (clampNum a) || Js.not (clampNum b) = true <->
  clampNum a = undefined \/ clampNum a = Some (Fin 0) \/
  clampNum b = undefined \/ clampNum b = Some (Fin 0).
Proof.
  rewrite orb_true_iff, !not_clampNum_true. tauto.
Qed.

Lemma bsa_inv (b : number) :
  bsa = Some b ->
  exists h w, clampNum (heightCm state) = Some (Fin h) /\
              clampNum (weightKg state) = Some (Fin w) /\
              h <> 0 /\ w <> 0 /\ b = Js.sqrt (Fin (h * w / 3600)).
Proof.
  unfold Hemo.bsa; cbv zeta. intros H. open_guard H.
  apply two_fields_pass in G as (h & w & Eh & Ew & Hh & Hw).
  rewrite Eh, Ew in H. simpl in H. rewrite Rzero_nonzero in H by lra.
  injection H as <-. now exists h, w.
Qed.

Lemma map_inv (m : number) :
  map = Some m ->
  exists s d, clampNum (sbp state) = Some (Fin s) /\
              clampNum (dbp state) = Some (Fin d) /\
              s <> 0 /\ d <> 0 /\ m = Fin (d + (s - d) / 3).
Proof.
  unfold Hemo.map; cbv zeta. intros H. open_guard H.
  apply two_fields_pass in G as (s & d & Es & Ed & Hs & Hd).
  rewrite Es, Ed in H. simpl in H. rewrite Rzero_nonzero in H by lra.
  injection H as <-. now exists s, d.
Qed.

Lemma mPAP_inv (p : number) :
  mPAP = Some p ->
  exists ps pd, clampNum (pasp state) = Some (Fin ps) /\
                clampNum (padp state) = Some (Fin pd) /\
                ps <> 0 /\ pd <> 0 /\ p = Fin ((ps + 2 * pd) / 3).
Proof.
  unfold Hemo.mPAP; cbv zeta. intros H. open_guard H.
  apply two_fields_pass in G as (ps & pd & Es & Ed & Hs & Hd).
  rewrite Es, Ed in H. simpl in H. rewrite Rzero_nonzero in H by lra.
  injection H as <-. now exists ps, pd.
Qed.

Lemma caO2_inv (a : number) :
  caO2 = Some a ->
  exists H Sa, clampNum (hb state) = Some (Fin H) /\
               clampNum (sao2 state) = Some (Fin Sa) /\
               H <> 0 /\ Sa <> 0 /\ a = Fin (134 / 100 * H * (Sa / 100)).
Proof.
  unfold Hemo.caO2; cbv zeta. intros E. open_guard E.
  apply two_fields_pass in G as (H & Sa & EH & ES & HH & HS).
  rewrite EH, ES in E. simpl in E. rewrite Rzero_nonzero in E by lra.
  injection E as <-. now exists H, Sa.
Qed.

Lemma cvO2_inv (b : number) :
  cvO2 = Some b ->
  exists H Sv, clampNum (hb state) = Some (Fin H) /\
               clampNum (svo2 state) = Some (Fin Sv) /\
               H <> 0 /\ Sv <> 0 /\ b = Fin (134 / 100 * H * (Sv / 100)).
Proof.
  unfold Hemo.cvO2; cbv zeta. intros E. open_guard E.
  apply two_fields_pass in G as (H & Sv & EH & ES & HH & HS).
  rewrite EH, ES in E. simpl in E. rewrite Rzero_nonzero in E by lra.
  injection E as <-. now exists H, Sv.
Qed.

(** A truthy square root is a positive finite number. *)
Lemma sqrt_truthy (x : R) :
  Js.not (Some (Js.sqrt (Fin x))) = false ->
  0 < x /\ Js.sqrt (Fin x) = Fin (sqrt x) /\ 0 < sqrt x.
Proof.
  simpl. destruct (Js.Rneg x) eqn:E; [discriminate|].
  apply Rneg_false in E. rewrite not_Fin. intros H.
  apply Rzero_false in H.
  assert (0 < x).
  { destruct E as [E|E]; [assumption|]. subst x. now rewrite sqrt_0 in H. }
  repeat split; try assumption. now apply sqrt_lt_R0.
Qed.

(** The estimated oxygen consumption, when present, is a positive finite
    number, and so is the body surface area under it. *)
Lemma vo2_inv (v : number) :
  vo2 = Some v ->
  exists r, bsa = Some (Fin r) /\ 0 < r /\ v = Fin (125 * r).
Proof.
  unfold Hemo.vo2. intros H. open_guard H.
  destruct bsa as [b|] eqn:E; [|discriminate].
  apply bsa_inv in E as (h & w & _ & _ & _ & _ & ->).
  apply sqrt_truthy in G as (_ & Es & Hs).
  rewrite Es in *. simpl in H. injection H as <-.
  now exists (sqrt (h * w / 3600)).
Qed.

(** The Fick step on present operands. *)
Lemma co_value (rv ra rb : R) :
  vo2 = Some (Fin rv) -> caO2 = Some (Fin ra) -> cvO2 = Some (Fin rb) ->
  co = if Js.Rleb (ra - rb) 0 then undefined
       else Some (Fin (rv / ((ra - rb) * 10))).
Proof.
  intros Ev Ea Eb. unfold Hemo.co. rewrite Ev, Ea, Eb. simpl.
  destruct (Js.Rleb (ra - rb) 0) eqn:E; [reflexivity|].
  apply Rleb_false in E. now real_tests.
Qed.

(** The cardiac output, when present, is a positive finite number. *)
Lemma co_inv (c : number) :
  co = Some c -> exists r, c = Fin r /\ 0 < r.
Proof.
  intros H. pose proof H as H'. unfold Hemo.co in H'. open_guard H'.
  apply orb_false_iff in G as [G Gb]. apply orb_false_iff in G as [Gv Ga].
  destruct vo2 as [v|] eqn:Ev; [|discriminate].
  destruct caO2 as [a|] eqn:Ea; [|discriminate].
  destruct cvO2 as [b|] eqn:Eb; [|discriminate].
  apply vo2_inv in Ev as Hv. destruct Hv as (r & _ & Hr & ->).
  apply caO2_inv in Ea as Ha. destruct Ha as (H1 & Sa & _ & _ & _ & _ & ->).
  apply cvO2_inv in Eb as Hb. destruct Hb as (H2 & Sv & _ & _ & _ & _ & ->).
  rewrite (co_value _ _ _ Ev Ea Eb) in H.
  destruct (Js.Rleb _ 0) eqn:E; [discriminate|].
  apply Rleb_false in E. injection H as <-.
  eexists. split; [reflexivity|]. apply Rdiv_pos; lra.
Qed.

(** C7.  With the oxygen consumption and the two oxygen contents present
    (they are then finite), the cardiac output is present exactly when the
    arterial content exceeds the venous one; it is then
    VO2 / ((CaO2 - CvO2) * 10) and is positive; it is absent when
    CaO2 <= CvO2. *)
Theorem co_fick (v a b : number) :
  vo2 = Some v -> caO2 = Some a -> cvO2 = Some b ->
  exists rv ra rb,
    v = Fin rv /\ a = Fin ra /\ b = Fin rb /\
    (co <> undefined <-> 0 < ra - rb) /\
    (0 < ra - rb ->
       co = Some (Fin (rv / ((ra - rb) * 10))) /\
       0 < rv / ((ra - rb) * 10)) /\
    (ra <= rb -> co = undefined).
Proof.
  intros Ev Ea Eb.
  apply vo2_inv in Ev as Hv. destruct Hv as (r & _ & Hr & ->).
  apply caO2_inv in Ea as Ha. destruct Ha as (H1 & Sa & _ & _ & _ & _ & ->).
  apply cvO2_inv in Eb as Hb. destruct Hb as (H2 & Sv & _ & _ & _ & _ & ->).
  do 3 eexists. do 3 (split; [reflexivity|]).
  rewrite (co_value _ _ _ Ev Ea Eb).
  set (ra := 134 / 100 * H1 * (Sa / 100)).
  set (rb := 134 / 100 * H2 * (Sv / 100)).
  destruct (Js.Rleb (ra - rb) 0) eqn:E.
  - apply Rleb_true in E. repeat split; intros; try lra; try reflexivity.
    now exfalso.
  - apply Rleb_false in E. repeat split; intros; try lra; try discriminate.
    apply Rdiv_pos; lra.
Qed.

Lemma map_value (s d : R) :
  clampNum (sbp state) = Some (Fin s) ->
  clampNum (dbp state) = Some (Fin d) ->
  s <> 0 -> d <> 0 ->
  map = Some (Fin (d + (s - d) / 3)).
Proof.
  intros Es Ed Hs Hd. unfold Hemo.map; cbv zeta.
  rewrite Es, Ed, !not_Fin. simpl. now real_tests.
Qed.

Lemma map_zero_field :
  clampNum (sbp state) = Some (Fin 0) \/ clampNum (dbp state) = Some (Fin 0) ->
  map = undefined.
Proof.
  unfold Hemo.map; cbv zeta.
  intros [-> | ->]; now rewrite not_Fin, Rzero_0, ?orb_true_r.
Qed.

(** C5, amended.  When the systolic and the diastolic pressure both parse
    to finite numbers other than zero, MAP is present and equals
    DBP + (SBP - DBP) / 3; MAP is absent exactly when one of the two is
    absent or zero. *)
Theorem map_cases :
  (forall s d,
      clampNum (sbp state) = Some (Fin s) ->
      clampNum (dbp state) = Some (Fin d) ->
      s <> 0 -> d <> 0 ->
      map = Some (Fin (d + (s - d) / 3))) /\
  (map = undefined <->
   clampNum (sbp state) = undefined \/ clampNum (sbp state) = Some (Fin 0) \/
   clampNum (dbp state) = undefined \/ clampNum (dbp state) = Some (Fin 0)).
Proof.
  split.
  - apply map_value.
  - rewrite <- two_fields_fail. unfold Hemo.map; cbv zeta.
    destruct (Js.not _ || Js.not _); split; intros; try reflexivity;
      discriminate.
Qed.

(** C10.  With MAP and the cardiac output present and a CVP field that
    parses to 0, the SVR is present and equals 80 * MAP / CO; the cardiac
    output is then not zero. *)
Theorem svr_cvp_zero (m c : number) :
  map = Some m -> co = Some c -> Number (cvp state) = Fin 0 ->
  exists rm rc,
    m = Fin rm /\ c = Fin rc /\ rc <> 0 /\
    svr = Some (Fin (80 * rm / rc)).
Proof.
  intros Em Ec Ecvp.
  apply map_inv in Em as Hm. destruct Hm as (s & d & _ & _ & _ & _ & ->).
  apply co_inv in Ec as Hc. destruct Hc as (rc & -> & Hrc).
  do 2 eexists. do 2 (split; [reflexivity|]). split; [lra|].
  apply clampNum_of_Number in Ecvp.
  unfold Hemo.svr; cbv zeta. rewrite Em, Ec, Ecvp, strictEq_Fin_0.
  simpl. real_tests. f_equal. f_equal. field. lra.
Qed.

(** *** Forward evaluation of the memos *)

Lemma bsa_value (h w : R) :
  clampNum (heightCm state) = Some (Fin h) ->
  clampNum (weightKg state) = Some (Fin w) ->
  h <> 0 -> w <> 0 ->
  bsa = Some (Js.sqrt (Fin (h * w / 3600))).
Proof.
  intros Eh Ew Hh Hw. unfold Hemo.bsa; cbv zeta.
  rewrite Eh, Ew, !not_Fin. simpl. now real_tests.
Qed.

Lemma mPAP_value (ps pd : R) :
  clampNum (pasp state) = Some (Fin ps) ->
  clampNum (padp state) = Some (Fin pd) ->
  ps <> 0 -> pd <> 0 ->
  mPAP = Some (Fin ((ps + 2 * pd) / 3)).
Proof.
  intros Es Ed Hs Hd. unfold Hemo.mPAP; cbv zeta.
  rewrite Es, Ed, !not_Fin. simpl. now real_tests.
Qed.

Lemma caO2_value (H Sa : R) :
  clampNum (hb state) = Some (Fin H) ->
  clampNum (sao2 state) = Some (Fin Sa) ->
  H <> 0 -> Sa <> 0 ->
  caO2 = Some (Fin (134 / 100 * H * (Sa / 100))).
Proof.
  intros EH ES HH HS. unfold Hemo.caO2; cbv zeta.
  rewrite EH, ES, !not_Fin. simpl. now real_tests.
Qed.

Lemma cvO2_value (H Sv : R) :
  clampNum (hb state) = Some (Fin H) ->
  clampNum (svo2 state) = Some (Fin Sv) ->
  H <> 0 -> Sv <> 0 ->
  cvO2 = Some (Fin (134 / 100 * H * (Sv / 100))).
Proof.
  intros EH ES HH HS. unfold Hemo.cvO2; cbv zeta.
  rewrite EH, ES, !not_Fin. simpl. now real_tests.
Qed.

Lemma vo2_value (r : R) :
  bsa = Some (Fin r) -> r <> 0 -> vo2 = Some (Fin (125 * r)).
Proof.
  intros E Hr. unfold Hemo.vo2. rewrite E, not_Fin. now real_tests.
Qed.

(** Both resistances of the pulmonary circuit subtract the text of the PCWP
    field as [Number] converts it, finite or not. *)
Lemma pvr_value (p c : R) (s : string) :
  mPAP = Some (Fin p) -> co = Some (Fin c) -> c <> 0 ->
  pcwp state = Some s ->
  pvr = Some ((Fin 80 * (Fin p - StringToNumber s)) / Fin c)%js /\
  pvrWU = Some ((Fin p - StringToNumber s) / Fin c)%js.
Proof.
  intros Ep Ec Hc Es. unfold Hemo.pvr, Hemo.pvrWU.
  rewrite Ep, Ec, Es, strictEq_Fin_0. simpl. now real_tests.
Qed.

Lemma pvr_of_NaN (p c : number) (s : string) :
  mPAP = Some p -> co = Some c -> pcwp state = Some s ->
  StringToNumber s = NaN ->
  pvr = Some NaN /\ pvrWU = Some NaN.
Proof.
  intros Ep Ec Es En.
  apply mPAP_inv in Ep as Hp. destruct Hp as (ps & pd & _ & _ & _ & _ & ->).
  apply co_inv in Ec as Hc. destruct Hc as (rc & -> & Hrc).
  destruct (pvr_value _ _ _ Ep Ec ltac:(lra) Es) as [-> ->].
  now rewrite En.
Qed.

(** *** Propagation of absence

    A memo is absent when a field it parses with [clampNum] does not parse
    to a finite number, or when a memo it reads is absent.  For the two
    pulmonary resistances this holds of the PCWP field only when the field
    is missing altogether. *)
Lemma absence_propagates :
  (clampNum (heightCm state) = undefined \/
   clampNum (weightKg state) = undefined -> bsa = undefined) /\
  (clampNum (sbp state) = undefined \/
   clampNum (dbp state) = undefined -> map = undefined) /\
  (clampNum (pasp state) = undefined \/
   clampNum (padp state) = undefined -> mPAP = undefined) /\
  (clampNum (hb state) = undefined \/
   clampNum (sao2 state) = undefined -> caO2 = undefined) /\
  (clampNum (hb state) = undefined \/
   clampNum (svo2 state) = undefined -> cvO2 = undefined) /\
  (bsa = undefined -> vo2 = undefined) /\
  (vo2 = undefined \/ caO2 = undefined \/ cvO2 = undefined ->
   co = undefined) /\
  (co = undefined \/ bsa = undefined -> ci = undefined) /\
  (co = undefined \/ clampNum (hr state) = undefined -> sv = undefined) /\
  (map = undefined \/ co = undefined \/ clampNum (cvp state) = undefined ->
   svr = undefined) /\
  (mPAP = undefined \/ co = undefined \/ pcwp state = None ->
   pvr = undefined /\ pvrWU = undefined).
Proof.
  repeat match goal with |- _ /\ _ => split end.
  - unfold Hemo.bsa; cbv zeta. intros [-> | ->]; now rewrite ?orb_true_r.
  - unfold Hemo.map; cbv zeta. intros [-> | ->]; now rewrite ?orb_true_r.
  - unfold Hemo.mPAP; cbv zeta. intros [-> | ->]; now rewrite ?orb_true_r.
  - unfold Hemo.caO2; cbv zeta. intros [-> | ->]; now rewrite ?orb_true_r.
  - unfold Hemo.cvO2; cbv zeta. intros [-> | ->]; now rewrite ?orb_true_r.
  - unfold Hemo.vo2. now intros ->.
  - unfold Hemo.co. intros [-> | [-> | ->]]; now rewrite ?orb_true_r.
  - unfold Hemo.ci. intros [-> | ->]; now rewrite ?orb_true_r.
  - unfold Hemo.sv; cbv zeta. intros [-> | ->]; now rewrite ?orb_true_r.
  - unfold Hemo.svr; cbv zeta. intros [-> | [-> | ->]];
      now rewrite ?orb_true_r.
  - unfold Hemo.pvr, Hemo.pvrWU.
    intros [-> | [-> | ->]]; now rewrite ?orb_true_r.
Qed.

(** A zero heart rate, body surface area or cardiac output leaves what is
    divided by it absent. *)
Lemma zero_denominator_absent :
  (clampNum (hr state) = Some (Fin 0) -> sv = undefined) /\
  (bsa = Some (Fin 0) -> ci = undefined /\ vo2 = undefined) /\
  (co = Some (Fin 0) ->
   sv = undefined /\ svr = undefined /\ pvr = undefined /\
   pvrWU = undefined).
Proof.
  repeat match goal with |- _ /\ _ => split end.
  - unfold Hemo.sv; cbv zeta. intros ->.
    now rewrite not_Fin, Rzero_0, !orb_true_r.
  - unfold Hemo.ci, Hemo.vo2. intros ->.
    now rewrite strictEq_Fin_0, not_Fin, Rzero_0, !orb_true_r.
  - unfold Hemo.sv, Hemo.svr, Hemo.pvr, Hemo.pvrWU; cbv zeta. intros ->.
    now rewrite strictEq_Fin_0, not_Fin, Rzero_0, !orb_true_r.
Qed.

End HemoFacts.

(** ** Evaluations on the bedside record *)

Lemma intLiteral_samples :
  intLiteral "" = Fin 0 /\ intLiteral "0" = Fin 0 /\
  intLiteral "8" = Fin 8 /\ intLiteral "12" = Fin 12 /\
  intLiteral "14" = Fin 14 /\ intLiteral "20" = Fin 20 /\
  intLiteral "40" = Fin 40 /\ intLiteral "70" = Fin 70 /\
  intLiteral "80" = Fin 80 /\ intLiteral "98" = Fin 98 /\
  intLiteral "120" = Fin 120 /\ intLiteral "170" = Fin 170 /\
  intLiteral "abc" = NaN /\ intLiteral "n/a" = NaN.
Proof. repeat split; reflexivity. Qed.

Section Bedside.

Variables s cv p : option string.

Local Notation st := (bedside s cv p).

Lemma bedside_bsa :
  Hemo.bsa intLiteral st = Some (Fin (sqrt (170 * 70 / 3600))) /\
  0 < sqrt (170 * 70 / 3600).
Proof.
  split.
  - rewrite (bsa_value intLiteral st 170 70) by (reflexivity || lra).
    simpl. now real_tests.
  - apply sqrt_lt_R0. lra.
Qed.

Lemma bedside_vo2 :
  Hemo.vo2 intLiteral st = Some (Fin (125 * sqrt (170 * 70 / 3600))).
Proof.
  destruct bedside_bsa as [E H]. apply vo2_value; [exact E | lra].
Qed.

Lemma bedside_caO2 :
  Hemo.caO2 intLiteral st = Some (Fin (134 / 100 * 14 * (98 / 100))).
Proof. apply caO2_value; reflexivity || lra. Qed.

Lemma bedside_cvO2 :
  Hemo.cvO2 intLiteral st = Some (Fin (134 / 100 * 14 * (70 / 100))).
Proof. apply cvO2_value; reflexivity || lra. Qed.

Lemma bedside_co :
  Hemo.co intLiteral st =
  Some (Fin (125 * sqrt (170 * 70 / 3600)
             / ((134 / 100 * 14 * (98 / 100) - 134 / 100 * 14 * (70 / 100))
                * 10))).
Proof.
  rewrite (co_value intLiteral st _ _ _ bedside_vo2 bedside_caO2 bedside_cvO2).
  now real_tests.
Qed.

Lemma bedside_mPAP :
  Hemo.mPAP intLiteral st = Some (Fin ((40 + 2 * 20) / 3)).
Proof. apply mPAP_value; reflexivity || lra. Qed.

End Bedside.

(** C2.  [useHemodynamics] has no [return] statement: on every record it
    evaluates to [undefined], not to a record of results, and the first
    property that [App] reads from it raises a [TypeError]. *)
Theorem useHemodynamics_returns_undefined :
  (forall StringToNumber state,
      Hemo.useHemodynamics StringToNumber state = undefined /\
      App_results_bsa StringToNumber state = TypeError) /\
  Hemo.useHemodynamics intLiteral defaultHemo = undefined /\
  App_results_bsa intLiteral defaultHemo = TypeError.
Proof. repeat split. Qed.

(** C3.  A PCWP field whose text is not a number is absent for [clampNum],
    and the mean pulmonary pressure and the cardiac output are present; the
    two pulmonary resistances are nevertheless not absent. *)
Theorem pvr_unparsed_pcwp_not_absent :
  let st := bedside (Some "120"%string) (Some "8"%string) (Some "abc"%string) in
  clampNum intLiteral (pcwp st) = undefined /\
  Hemo.mPAP intLiteral st <> undefined /\
  Hemo.co intLiteral st <> undefined /\
  Hemo.pvr intLiteral st <> undefined /\
  Hemo.pvrWU intLiteral st <> undefined.
Proof.
  intros st.
  destruct (pvr_of_NaN intLiteral st _ _ "abc"
              (bedside_mPAP _ _ _) (bedside_co _ _ _) eq_refl eq_refl)
    as [E1 E2].
  rewrite E1, E2. unfold st. rewrite bedside_mPAP, bedside_co.
  repeat split; discriminate.
Qed.

(** C4.  With the text n/a in the PCWP field, a required input of the two
    pulmonary resistances is absent, and both are [NaN]. *)
Theorem pvr_unparsed_pcwp_NaN :
  let st := bedside (Some "120"%string) (Some "8"%string) (Some "n/a"%string) in
  Js.isFinite (Number intLiteral (pcwp st)) = false /\
  Hemo.pvr intLiteral st = Some NaN /\
  Hemo.pvrWU intLiteral st = Some NaN.
Proof.
  intros st. split; [reflexivity|].
  exact (pvr_of_NaN intLiteral st _ _ "n/a"
           (bedside_mPAP _ _ _) (bedside_co _ _ _) eq_refl eq_refl).
Qed.

(** C5, as stated, fails: a systolic pressure of 0 is a finite number, the
    diastolic pressure is present, and MAP is absent. *)
Lemma map_zero_sbp_absent :
  let st := bedside (Some "0"%string) (Some "8"%string) (Some "12"%string) in
  clampNum intLiteral (sbp st) = Some (Fin 0) /\
  clampNum intLiteral (dbp st) = Some (Fin 80) /\
  Hemo.map intLiteral st = undefined /\
  Hemo.map intLiteral st <> Some (Fin (80 + (0 - 80) / 3)).
Proof.
  intros st.
  assert (E : Hemo.map intLiteral st = undefined).
  { apply map_zero_field. now left. }
  rewrite E. repeat split. discriminate.
Qed.

Lemma map_cases_witness :
  Hemo.map intLiteral
    (bedside (Some "120"%string) (Some "8"%string) (Some "12"%string))
  = Some (Fin (80 + (120 - 80) / 3)).
Proof.
  apply (proj1 (map_cases intLiteral
                  (bedside (Some "120"%string) (Some "8"%string)
                     (Some "12"%string))));
    reflexivity || lra.
Defined.

Lemma co_fick_witness :
  exists rv ra rb,
    Fin (125 * sqrt (170 * 70 / 3600)) = Fin rv /\
    Fin (134 / 100 * 14 * (98 / 100)) = Fin ra /\
    Fin (134 / 100 * 14 * (70 / 100)) = Fin rb /\
    (Hemo.co intLiteral (bedside None None None) <> undefined <->
     0 < ra - rb) /\
    (0 < ra - rb ->
       Hemo.co intLiteral (bedside None None None)
       = Some (Fin (rv / ((ra - rb) * 10))) /\
       0 < rv / ((ra - rb) * 10)) /\
    (ra <= rb -> Hemo.co intLiteral (bedside None None None) = undefined).
Proof.
  apply (co_fick intLiteral (bedside None None None)).
  - apply bedside_vo2.
  - apply bedside_caO2.
  - apply bedside_cvO2.
Defined.

Lemma svr_cvp_zero_witness :
  exists rm rc,
    Fin (80 + (120 - 80) / 3) = Fin rm /\
    Fin (125 * sqrt (170 * 70 / 3600)
         / ((134 / 100 * 14 * (98 / 100) - 134 / 100 * 14 * (70 / 100)) * 10))
    = Fin rc /\
    rc <> 0 /\
    Hemo.svr intLiteral
      (bedside (Some "120"%string) (Some "0"%string) (Some "12"%string))
    = Some (Fin (80 * rm / rc)).
Proof.
  apply (svr_cvp_zero intLiteral
           (bedside (Some "120"%string) (Some "0"%string) (Some "12"%string))).
  - apply map_value; reflexivity || lra.
  - apply bedside_co.
  - reflexivity.
Defined.

(** ** More on the drip converters *)

Lemma calcRate_guarded (mg vol x w : value) :
  Js.not x = true \/ Js.not w = true \/ (Js.num w <=? Fin 0)%js = true ->
  Drip.calcRate mg vol x w = undefined.
Proof.
  unfold Drip.calcRate. intros [-> | [-> | ->]];
    now rewrite ?orb_true_r.
Qed.

Lemma calcDose_finite_absent (m v r k : R) :
  v = 0 \/ r = 0 \/ k <= 0 \/ m / v <= 0 ->
  Drip.calcDose (Some (Fin m)) (Some (Fin v)) (Some (Fin r)) (Some (Fin k))
  = undefined.
Proof.
  intros [-> | [-> | [Hk | Hc]]].
  - apply calcDose_no_concentration.
    apply (mgPerMl_invalid (Some m) (Some 0)). now do 2 right; left.
  - apply calcDose_guarded. left. now rewrite not_Fin, Rzero_0.
  - apply calcDose_guarded. do 2 right. now apply Rleb_le.
  - apply calcDose_no_concentration.
    apply (mgPerMl_invalid (Some m) (Some v)). do 3 right. now exists m, v.
Qed.

Lemma calcRate_finite_absent (m v d k : R) :
  v = 0 \/ d = 0 \/ k <= 0 \/ m / v <= 0 ->
  Drip.calcRate (Some (Fin m)) (Some (Fin v)) (Some (Fin d)) (Some (Fin k))
  = undefined.
Proof.
  intros [-> | [-> | [Hk | Hc]]].
  - apply calcRate_no_concentration.
    apply (mgPerMl_invalid (Some m) (Some 0)). now do 2 right; left.
  - apply calcRate_guarded. left. now rewrite not_Fin, Rzero_0.
  - apply calcRate_guarded. do 2 right. now apply Rleb_le.
  - apply calcRate_no_concentration.
    apply (mgPerMl_invalid (Some m) (Some v)). do 3 right. now exists m, v.
Qed.

(** The four finite inputs of a converter either pass every guard or fail
    one. *)
Lemma drip_guards_dec (m v x k : R) :
  (v <> 0 /\ x <> 0 /\ 0 < k /\ 0 < m / v) \/
  (v = 0 \/ x = 0 \/ k <= 0 \/ m / v <= 0).
Proof.
  destruct (Req_dec_T v 0); [tauto|].
  destruct (Req_dec_T x 0); [tauto|].
  destruct (Rle_dec k 0); [tauto|].
  destruct (Rle_dec (m / v) 0); [tauto|].
  left. repeat split; try assumption; lra.
Qed.

Lemma calcDose_missing (mg vol rate w : option R) :
  mg = None \/ vol = None \/ rate = None \/ w = None ->
  Drip.calcDose (optFin mg) (optFin vol) (optFin rate) (optFin w) = undefined.
Proof.
  intros [-> | [-> | [-> | ->]]].
  - apply calcDose_no_concentration. now left.
  - apply calcDose_no_concentration. left.
    unfold Drip.mgPerMl. now rewrite andb_false_r.
  - apply calcDose_guarded. now left.
  - apply calcDose_guarded. now right; left.
Qed.

Lemma calcRate_missing (mg vol dose w : option R) :
  mg = None \/ vol = None \/ dose = None \/ w = None ->
  Drip.calcRate (optFin mg) (optFin vol) (optFin dose) (optFin w) = undefined.
Proof.
  intros [-> | [-> | [-> | ->]]].
  - apply calcRate_no_concentration. now left.
  - apply calcRate_no_concentration. left.
    unfold Drip.mgPerMl. now rewrite andb_false_r.
  - apply calcRate_guarded. now left.
  - apply calcRate_guarded. now right; left.
Qed.

(** What a converter returns is a finite number other than zero. *)
Lemma calcDose_inv (mg vol rate w : option R) (n : number) :
  Drip.calcDose (optFin mg) (optFin vol) (optFin rate) (optFin w) = Some n ->
  exists m v r k,
    mg = Some m /\ vol = Some v /\ rate = Some r /\ w = Some k /\
    v <> 0 /\ r <> 0 /\ 0 < k /\ 0 < m / v /\
    n = Fin (r * (m / v * 1000) / (60 * k)).
Proof.
  intros H.
  destruct mg as [m|]; [|now rewrite calcDose_missing in H by tauto].
  destruct vol as [v|]; [|now rewrite calcDose_missing in H by tauto].
  destruct rate as [r|]; [|now rewrite calcDose_missing in H by tauto].
  destruct w as [k|]; [|now rewrite calcDose_missing in H by tauto].
  simpl in H.
  destruct (drip_guards_dec m v r k) as [(Hv & Hr & Hk & Hc) | Hbad].
  - rewrite calcDose_finite in H by assumption. injection H as <-.
    now exists m, v, r, k.
  - now rewrite calcDose_finite_absent in H.
Qed.

Lemma calcRate_inv (mg vol dose w : option R) (n : number) :
  Drip.calcRate (optFin mg) (optFin vol) (optFin dose) (optFin w) = Some n ->
  exists m v d k,
    mg = Some m /\ vol = Some v /\ dose = Some d /\ w = Some k /\
    v <> 0 /\ d <> 0 /\ 0 < k /\ 0 < m / v /\
    n = Fin (d * 60 * k / (m / v * 1000)).
Proof.
  intros H.
  destruct mg as [m|]; [|now rewrite calcRate_missing in H by tauto].
  destruct vol as [v|]; [|now rewrite calcRate_missing in H by tauto].
  destruct dose as [d|]; [|now rewrite calcRate_missing in H by tauto].
  destruct w as [k|]; [|now rewrite calcRate_missing in H by tauto].
  simpl in H.
  destruct (drip_guards_dec m v d k) as [(Hv & Hd & Hk & Hc) | Hbad].
  - rewrite calcRate_finite in H by assumption. injection H as <-.
    now exists m, v, d, k.
  - now rewrite calcRate_finite_absent in H.
Qed.

Lemma dose_nonzero (r c k : R) :
  r <> 0 -> 0 < c -> 0 < k -> r * (c * 1000) / (60 * k) <> 0.
Proof.
  intros Hr Hc Hk E.
  assert (H : r * (c * 1000) / (60 * k) * (60 * k) = r * (c * 1000))
    by (field; lra).
  rewrite E, Rmult_0_l in H.
  assert (r * c = 0) by lra.
  destruct (Rmult_integral _ _ H0); lra.
Qed.

Lemma rate_nonzero (d c k : R) :
  d <> 0 -> 0 < c -> 0 < k -> d * 60 * k / (c * 1000) <> 0.
Proof.
  intros Hd Hc Hk E.
  assert (H : d * 60 * k / (c * 1000) * (c * 1000) = d * 60 * k)
    by (field; lra).
  rewrite E, Rmult_0_l in H.
  assert (d * k = 0) by lra.
  destruct (Rmult_integral _ _ H0); lra.
Qed.

(** X1.  [calcRate] on inputs that are each absent or finite: with all four
    present, a dose other than zero, a positive weight and a positive
    concentration over a nonzero volume, the rate is present and equals
    dose * 60 * weight / (concentration * 1000); it is absent when an input
    is absent, the weight is not positive, the dose or the volume is zero, or
    the concentration is not positive. *)
Theorem calcRate_cases (mg vol dose w : option R) :
  (forall m v d k,
      mg = Some m -> vol = Some v -> dose = Some d -> w = Some k ->
      v <> 0 -> d <> 0 -> 0 < k -> 0 < m / v ->
      Drip.calcRate (optFin mg) (optFin vol) (optFin dose) (optFin w)
      = Some (Fin (d * 60 * k / (m / v * 1000)))) /\
  (mg = None \/ vol = None \/ dose = None \/ w = None \/
   (exists k, w = Some k /\ k <= 0) \/ dose = Some 0 \/ vol = Some 0 \/
   (exists m v, mg = Some m /\ vol = Some v /\ m / v <= 0) ->
   Drip.calcRate (optFin mg) (optFin vol) (optFin dose) (optFin w)
   = undefined).
Proof.
  split.
  - intros m v d k -> -> -> -> Hv Hd Hk Hc. now apply calcRate_finite.
  - intros H.
    destruct (Drip.calcRate (optFin mg) (optFin vol) (optFin dose) (optFin w))
      as [n|] eqn:E; [|reflexivity].
    apply calcRate_inv in E
      as (m & v & d & k & -> & -> & -> & -> & Hv & Hd & Hk & Hc & _).
    destruct H as [H|[H|[H|[H|[(k' & H & Hk')|[H|[H|(m' & v' & H1 & H2 & H3)]]]]]]];
      try discriminate.
    + injection H as <-. lra.
    + injection H as ->. lra.
    + injection H as ->. lra.
    + injection H1 as <-. injection H2 as <-. lra.
Qed.

Lemma calcRate_cases_witness :
  Drip.calcRate (Some (Fin 4)) (Some (Fin 250)) (Some (Fin 3)) (Some (Fin 70))
    = Some (Fin (3 * 60 * 70 / (4 / 250 * 1000))) /\
  Drip.calcRate (Some (Fin 4)) (Some (Fin 250)) (Some (Fin 3)) (Some (Fin 0))
    = undefined.
Proof.
  split.
  - apply (calcRate_cases (Some 4) (Some 250) (Some 3) (Some 70));
      try reflexivity; lra.
  - apply (calcRate_cases (Some 4) (Some 250) (Some 3) (Some 0)).
    do 4 right. left. exists 0. split; [reflexivity | lra].
Defined.

(** X2.  Converting and converting back, in either direction and on inputs
    that are each absent or finite: when the first conversion gives a
    number the second gives back the entered value, of either sign; when the
    first is absent so is the second.  An entered value of zero is thus not
    recovered. *)
Theorem drip_round_trips (mg vol x w : option R) :
  Drip.calcDose (optFin mg) (optFin vol)
    (Drip.calcRate (optFin mg) (optFin vol) (optFin x) (optFin w)) (optFin w)
  = (if Js.isNullish
          (Drip.calcRate (optFin mg) (optFin vol) (optFin x) (optFin w))
     then undefined else optFin x) /\
  Drip.calcRate (optFin mg) (optFin vol)
    (Drip.calcDose (optFin mg) (optFin vol) (optFin x) (optFin w)) (optFin w)
  = (if Js.isNullish
          (Drip.calcDose (optFin mg) (optFin vol) (optFin x) (optFin w))
     then undefined else optFin x).
Proof.
  split.
  - destruct (Drip.calcRate _ _ (optFin x) _) as [n|] eqn:E.
    + apply calcRate_inv in E
        as (m & v & d & k & -> & -> & -> & -> & Hv & Hd & Hk & Hc & ->).
      simpl. set (c := m / v) in *.
      pose proof (rate_nonzero d c k Hd Hc Hk).
      rewrite calcDose_finite by assumption.
      fold c. f_equal. f_equal. field. lra.
    + apply calcDose_guarded. now left.
  - destruct (Drip.calcDose _ _ (optFin x) _) as [n|] eqn:E.
    + apply calcDose_inv in E
        as (m & v & r & k & -> & -> & -> & -> & Hv & Hr & Hk & Hc & ->).
      simpl. set (c := m / v) in *.
      pose proof (dose_nonzero r c k Hr Hc Hk).
      rewrite calcRate_finite by assumption.
      fold c. f_equal. f_equal. field. lra.
    + apply calcRate_guarded. now left.
Qed.



Lemma mgPerMl_scaled (k m v : R) :
  k <> 0 ->
  Drip.mgPerMl (Some (Fin (k * m))) (Some (Fin (k * v)))
  = Drip.mgPerMl (Some (Fin m)) (Some (Fin v)).
Proof.
  intros Hk. unfold Drip.mgPerMl; simpl.
  destruct (Req_dec_T m 0) as [-> | Hm].
  { now rewrite Rmult_0_r, Rzero_0. }
  destruct (Req_dec_T v 0) as [-> | Hv].
  { now rewrite Rmult_0_r, Rzero_0, !andb_false_r. }
  assert (k * m <> 0) by (now apply Rmult_integral_contrapositive).
  assert (k * v <> 0) by (now apply Rmult_integral_contrapositive).
  rewrite !Rzero_nonzero by assumption. simpl.
  f_equal. f_equal. now field.
Qed.

(** X4.  Only the concentration of the bag matters: multiplying the drug
    mass and the diluent volume by the same factor other than zero changes
    neither the dose nor the rate, whatever the other two inputs. *)
Theorem drip_bag_scaling (k m v : R) (x w : value) :
  k <> 0 ->
  Drip.calcDose (Some (Fin (k * m))) (Some (Fin (k * v))) x w
  = Drip.calcDose (Some (Fin m)) (Some (Fin v)) x w /\
  Drip.calcRate (Some (Fin (k * m))) (Some (Fin (k * v))) x w
  = Drip.calcRate (Some (Fin m)) (Some (Fin v)) x w.
Proof.
  intros Hk. unfold Drip.calcDose, Drip.calcRate.
  now rewrite (mgPerMl_scaled k m v Hk).
Qed.

Lemma drip_bag_scaling_witness :
  Drip.calcDose (Some (Fin (2 * 4))) (Some (Fin (2 * 250))) (Some (Fin 10))
    (Some (Fin 70))
  = Drip.calcDose (Some (Fin 4)) (Some (Fin 250)) (Some (Fin 10))
      (Some (Fin 70)) /\
  Drip.calcRate (Some (Fin (2 * 4))) (Some (Fin (2 * 250))) (Some (Fin 10))
    (Some (Fin 70))
  = Drip.calcRate (Some (Fin 4)) (Some (Fin 250)) (Some (Fin 10))
      (Some (Fin 70)).
Proof. apply drip_bag_scaling. lra. Defined.

Lemma Rdiv_lt_pos_denominator (a b c : R) :
  0 < c -> a < b -> a / c < b / c.
Proof.
  intros Hc Hab. unfold Rdiv.
  apply Rmult_lt_compat_r; [now apply Rinv_0_lt_compat | assumption].
Qed.

Lemma Rdiv_lt_pos_numerator (a c1 c2 : R) :
  0 < a -> 0 < c1 -> c1 < c2 -> a / c2 < a / c1.
Proof.
  intros Ha H1 H2. unfold Rdiv.
  apply Rmult_lt_compat_l; [assumption|].
  apply Rinv_lt_contravar; [|assumption].
  apply Rmult_lt_0_compat; lra.
Qed.

(** X5.  For a bag of positive concentration: the dose grows with the rate
    and, at a positive rate, shrinks as the weight grows; the rate grows
    with the target dose and, at a positive dose, with the weight. *)
Theorem drip_monotone (m v : R) :
  v <> 0 -> 0 < m / v ->
  (forall k r1 r2, 0 < k -> r1 <> 0 -> r2 <> 0 -> r1 < r2 ->
     value_lt
       (Drip.calcDose (Some (Fin m)) (Some (Fin v)) (Some (Fin r1))
          (Some (Fin k)))
       (Drip.calcDose (Some (Fin m)) (Some (Fin v)) (Some (Fin r2))
          (Some (Fin k)))) /\
  (forall r k1 k2, 0 < r -> 0 < k1 -> k1 < k2 ->
     value_lt
       (Drip.calcDose (Some (Fin m)) (Some (Fin v)) (Some (Fin r))
          (Some (Fin k2)))
       (Drip.calcDose (Some (Fin m)) (Some (Fin v)) (Some (Fin r))
          (Some (Fin k1)))) /\
  (forall k d1 d2, 0 < k -> d1 <> 0 -> d2 <> 0 -> d1 < d2 ->
     value_lt
       (Drip.calcRate (Some (Fin m)) (Some (Fin v)) (Some (Fin d1))
          (Some (Fin k)))
       (Drip.calcRate (Some (Fin m)) (Some (Fin v)) (Some (Fin d2))
          (Some (Fin k)))) /\
  (forall d k1 k2, 0 < d -> 0 < k1 -> k1 < k2 ->
     value_lt
       (Drip.calcRate (Some (Fin m)) (Some (Fin v)) (Some (Fin d))
          (Some (Fin k1)))
       (Drip.calcRate (Some (Fin m)) (Some (Fin v)) (Some (Fin d))
          (Some (Fin k2)))).
Proof.
  intros Hv Hc. set (c := m / v) in *.
  repeat match goal with |- _ /\ _ => split end.
  - intros k r1 r2 Hk H1 H2 Hlt.
    do 2 eexists. split; [now apply calcDose_finite|].
    split; [now apply calcDose_finite|]. fold c.
    apply Rdiv_lt_pos_denominator; [lra|].
    apply Rmult_lt_compat_r; lra.
  - intros r k1 k2 Hr H1 H2.
    do 2 eexists. split; [apply calcDose_finite; (assumption || lra)|].
    split; [apply calcDose_finite; (assumption || lra)|]. fold c.
    apply Rdiv_lt_pos_numerator; [|lra|lra].
    apply Rmult_lt_0_compat; lra.
  - intros k d1 d2 Hk H1 H2 Hlt.
    do 2 eexists. split; [now apply calcRate_finite|].
    split; [now apply calcRate_finite|]. fold c.
    apply Rdiv_lt_pos_denominator; [lra|].
    apply Rmult_lt_compat_r; lra.
  - intros d k1 k2 Hd H1 H2.
    do 2 eexists. split; [apply calcRate_finite; (assumption || lra)|].
    split; [apply calcRate_finite; (assumption || lra)|]. fold c.
    apply Rdiv_lt_pos_denominator; [lra|].
    apply Rmult_lt_compat_l; [lra | assumption].
Qed.

Lemma drip_monotone_witness :
  value_lt
    (Drip.calcDose (Some (Fin 4)) (Some (Fin 250)) (Some (Fin 10))
       (Some (Fin 70)))
    (Drip.calcDose (Some (Fin 4)) (Some (Fin 250)) (Some (Fin 12))
       (Some (Fin 70))).
Proof.
  apply (proj1 (drip_monotone 4 250 ltac:(lra) ltac:(lra))); lra.
Defined.

(** X6.  The two converters accept the same bags and weights: for a rate
    and a target dose that are finite and not zero, [calcDose] is absent
    exactly when [calcRate] is. *)
Theorem drip_same_guards (mg vol w : option R) (r d : R) :
  r <> 0 -> d <> 0 ->
  (Drip.calcDose (optFin mg) (optFin vol) (Some (Fin r)) (optFin w) = undefined
   <->
   Drip.calcRate (optFin mg) (optFin vol) (Some (Fin d)) (optFin w)
   = undefined).
Proof.
  intros Hr Hd.
  destruct mg as [m|];
    [|change (Some (Fin r)) with (optFin (Some r));
      change (Some (Fin d)) with (optFin (Some d));
      now rewrite calcDose_missing, calcRate_missing by tauto].
  destruct vol as [v|];
    [|change (Some (Fin r)) with (optFin (Some r));
      change (Some (Fin d)) with (optFin (Some d));
      now rewrite calcDose_missing, calcRate_missing by tauto].
  destruct w as [k|];
    [|change (Some (Fin r)) with (optFin (Some r));
      change (Some (Fin d)) with (optFin (Some d));
      now rewrite calcDose_missing, calcRate_missing by tauto].
  simpl.
  destruct (drip_guards_dec m v r k) as [(Hv & _ & Hk & Hc) | Hbad].
  - rewrite calcDose_finite, calcRate_finite by assumption.
    split; discriminate.
  - assert (v = 0 \/ d = 0 \/ k <= 0 \/ m / v <= 0) by tauto.
    now rewrite calcDose_finite_absent, calcRate_finite_absent.
Qed.

Lemma drip_same_guards_witness :
  Drip.calcDose (Some (Fin 4)) (Some (Fin 250)) (Some (Fin 10)) (Some (Fin 0))
  = undefined <->
  Drip.calcRate (Some (Fin 4)) (Some (Fin 250)) (Some (Fin 3)) (Some (Fin 0))
  = undefined.
Proof.
  apply (drip_same_guards (Some 4) (Some 250) (Some 0) 10 3); lra.
Defined.



Lemma toFixedOrDash_Fin (x : R) (digits : nat) :
  toFixedOrDash (Some (Fin x)) digits = ToFixed (Fin x) digits.
Proof. reflexivity. Qed.



(** ** More on the hemodynamic memos *)

Section HemoChain.

Variable StringToNumber : string -> number.
Variable state : HemoInputs.

Local Notation clampNum := (clampNum StringToNumber).
Local Notation Number := (Number StringToNumber).
Local Notation bsa := (Hemo.bsa StringToNumber state).
Local Notation map := (Hemo.map StringToNumber state).
Local Notation mPAP := (Hemo.mPAP StringToNumber state).
Local Notation caO2 := (Hemo.caO2 StringToNumber state).
Local Notation cvO2 := (Hemo.cvO2 StringToNumber state).
Local Notation vo2 := (Hemo.vo2 StringToNumber state).
Local Notation co := (Hemo.co StringToNumber state).
Local Notation ci := (Hemo.ci StringToNumber state).
Local Notation sv := (Hemo.sv StringToNumber state).
Local Notation svr := (Hemo.svr StringToNumber state).
Local Notation pvr := (Hemo.pvr StringToNumber state).
Local Notation pvrWU := (Hemo.pvrWU StringToNumber state).

Lemma bsa_positive (h w : R) :
  clampNum (heightCm state) = Some (Fin h) ->
  clampNum (weightKg state) = Some (Fin w) ->
  0 < h * w ->
  bsa = Some (Fin (sqrt (h * w / 3600))) /\ 0 < sqrt (h * w / 3600).
Proof.
  intros Eh Ew Hp.
  assert (h <> 0) by (intros ->; rewrite Rmult_0_l in Hp; lra).
  assert (w <> 0) by (intros ->; rewrite Rmult_0_r in Hp; lra).
  rewrite (bsa_value StringToNumber state h w) by assumption.
  split; [simpl; now real_tests | apply sqrt_lt_R0; lra].
Qed.

Lemma bsa_opposite_signs (h w : R) :
  clampNum (heightCm state) = Some (Fin h) ->
  clampNum (weightKg state) = Some (Fin w) ->
  h * w < 0 ->
  bsa = Some NaN.
Proof.
  intros Eh Ew Hp.
  assert (h <> 0) by (intros ->; rewrite Rmult_0_l in Hp; lra).
  assert (w <> 0) by (intros ->; rewrite Rmult_0_r in Hp; lra).
  rewrite (bsa_value StringToNumber state h w) by assumption.
  simpl. now real_tests.
Qed.

(** A finite body surface area comes from a height and a weight of the same
    sign, and is positive. *)
Lemma bsa_finite_inv (r : R) :
  bsa = Some (Fin r) ->
  exists h w, clampNum (heightCm state) = Some (Fin h) /\
              clampNum (weightKg state) = Some (Fin w) /\
              0 < h * w /\ r = sqrt (h * w / 3600) /\ 0 < r.
Proof.
  intros E. apply bsa_inv in E as (h & w & Eh & Ew & Hh & Hw & E).
  simpl in E. destruct (Js.Rneg (h * w / 3600)) eqn:N; [discriminate|].
  injection E as ->. apply Rneg_false in N.
  assert (h * w <> 0) by (now apply Rmult_integral_contrapositive).
  assert (0 < h * w) by lra.
  exists h, w. repeat split; try assumption. apply sqrt_lt_R0. lra.
Qed.

Lemma bsa_number_inv (b : number) :
  bsa = Some b -> b = NaN \/ exists r, b = Fin r /\ 0 < r.
Proof.
  intros E. pose proof E as E'.
  apply bsa_inv in E' as (h & w & _ & _ & _ & _ & ->).
  simpl in *. destruct (Js.Rneg (h * w / 3600)); [now left|].
  right. apply bsa_finite_inv in E as (_ & _ & _ & _ & _ & _ & H).
  eexists. now split.
Qed.

(** The cardiac output, when present, with what it was computed from. *)
Lemma co_inv_full (c : number) :
  co = Some c ->
  exists r ra rb,
    bsa = Some (Fin r) /\ 0 < r /\ vo2 = Some (Fin (125 * r)) /\
    caO2 = Some (Fin ra) /\ cvO2 = Some (Fin rb) /\ 0 < ra - rb /\
    c = Fin (125 * r / ((ra - rb) * 10)).
Proof.
  intros H. pose proof H as H'. unfold Hemo.co in H'. open_guard H'.
  apply orb_false_iff in G as [G Gb]. apply orb_false_iff in G as [Gv Ga].
  destruct vo2 as [v|] eqn:Ev; [|discriminate].
  destruct caO2 as [a|] eqn:Ea; [|discriminate].
  destruct cvO2 as [b|] eqn:Eb; [|discriminate].
  apply vo2_inv in Ev as Hv. destruct Hv as (r & Er & Hr & ->).
  apply caO2_inv in Ea as Ha. destruct Ha as (H1 & Sa & _ & _ & _ & _ & ->).
  apply cvO2_inv in Eb as Hb. destruct Hb as (H2 & Sv & _ & _ & _ & _ & ->).
  rewrite (co_value _ _ _ _ _ Ev Ea Eb) in H.
  destruct (Js.Rleb _ 0) eqn:E; [discriminate|].
  apply Rleb_false in E. injection H as <-.
  do 3 eexists. repeat split; try eassumption; try reflexivity.
Qed.

Lemma ci_value (c r : R) :
  co = Some (Fin c) -> bsa = Some (Fin r) -> r <> 0 ->
  ci = Some (Fin (c / r)).
Proof.
  intros Ec Eb Hr. unfold Hemo.ci.
  rewrite Ec, Eb, strictEq_Fin_0. simpl. now real_tests.
Qed.


Lemma sv_value (c H : R) :
  co = Some (Fin c) -> clampNum (hr state) = Some (Fin H) ->
  c <> 0 -> H <> 0 ->
  sv = Some (Fin (c * 1000 / H)).
Proof.
  intros Ec EH Hc HH. unfold Hemo.sv; cbv zeta.
  rewrite Ec, EH, !not_Fin, strictEq_Fin_0. simpl. now real_tests.
Qed.


Lemma svr_value (m c x : R) :
  map = Some (Fin m) -> co = Some (Fin c) ->
  clampNum (cvp state) = Some (Fin x) -> c <> 0 ->
  svr = Some (Fin (80 * (m - x) / c)).
Proof.
  intros Em Ec Ex Hc. unfold Hemo.svr; cbv zeta.
  rewrite Em, Ec, Ex, strictEq_Fin_0. simpl. now real_tests.
Qed.


Lemma pvrWU_inv (u : number) :
  pvrWU = Some u ->
  exists p c s, mPAP = Some (Fin p) /\ co = Some (Fin c) /\ 0 < c /\
                pcwp state = Some s /\
                u = ((Fin p - StringToNumber s) / Fin c)%js /\
                pvr = Some ((Fin 80 * (Fin p - StringToNumber s)) / Fin c)%js.
Proof.
  intros E. pose proof E as E'. unfold Hemo.pvrWU in E'. open_guard E'.
  apply orb_false_iff in G as [G _]. apply orb_false_iff in G as [G Gs].
  apply orb_false_iff in G as [Gp Gc].
  destruct mPAP as [p|] eqn:Ep; [|discriminate].
  destruct co as [c|] eqn:Ec; [|discriminate].
  destruct (pcwp state) as [s|] eqn:Es; [|discriminate].
  apply mPAP_inv in Ep as Hp. destruct Hp as (ps & pd & _ & _ & _ & _ & ->).
  apply co_inv in Ec as Hc. destruct Hc as (rc & -> & Hrc).
  destruct (pvr_value StringToNumber state _ rc s Ep Ec ltac:(lra) Es)
    as [E1 E2].
  rewrite E2 in E. injection E as <-.
  do 3 eexists. repeat split; try eassumption; reflexivity.
Qed.

(** X9.  The body surface area, for a height and a weight that parse to
    finite numbers: with a positive product it is the positive number
    sqrt (height * weight / 3600), so two negative entries count like two
    positive ones; with a negative product it is [NaN]; it is absent exactly
    when one of the two is absent or zero. *)
Theorem bsa_cases :
  (forall h w,
      clampNum (heightCm state) = Some (Fin h) ->
      clampNum (weightKg state) = Some (Fin w) ->
      (0 < h * w ->
         bsa = Some (Fin (sqrt (h * w / 3600))) /\
         0 < sqrt (h * w / 3600)) /\
      (h * w < 0 -> bsa = Some NaN)) /\
  (bsa = undefined <->
   clampNum (heightCm state) = undefined \/
   clampNum (heightCm state) = Some (Fin 0) \/
   clampNum (weightKg state) = undefined \/
   clampNum (weightKg state) = Some (Fin 0)).
Proof.
  split.
  - intros h w Eh Ew. split.
    + now apply bsa_positive.
    + now apply bsa_opposite_signs.
  - rewrite <- two_fields_fail. unfold Hemo.bsa; cbv zeta.
    destruct (Js.not _ || Js.not _); split; intros; try reflexivity;
      discriminate.
Qed.

(** X10.  With a diastolic pressure that does not exceed the systolic one,
    a present MAP lies between the two; likewise a present mean pulmonary
    pressure lies between PADP and PASP. *)
Theorem mean_pressure_bounds :
  (forall s d m,
      clampNum (sbp state) = Some (Fin s) ->
      clampNum (dbp state) = Some (Fin d) ->
      d <= s -> map = Some m ->
      exists r, m = Fin r /\ d <= r <= s) /\
  (forall ps pd p,
      clampNum (pasp state) = Some (Fin ps) ->
      clampNum (padp state) = Some (Fin pd) ->
      pd <= ps -> mPAP = Some p ->
      exists r, p = Fin r /\ pd <= r <= ps).
Proof.
  split.
  - intros s d m Es Ed Hle Em.
    apply map_inv in Em as (s' & d' & Es' & Ed' & _ & _ & ->).
    rewrite Es in Es'. rewrite Ed in Ed'.
    injection Es' as <-. injection Ed' as <-.
    eexists. split; [reflexivity | lra].
  - intros ps pd p Es Ed Hle Ep.
    apply mPAP_inv in Ep as (s' & d' & Es' & Ed' & _ & _ & ->).
    rewrite Es in Es'. rewrite Ed in Ed'.
    injection Es' as <-. injection Ed' as <-.
    eexists. split; [reflexivity | lra].
Qed.


(** X12.  The Fick estimate end to end.  The cardiac output is present
    exactly when height and weight parse to finite numbers of positive
    product, hemoglobin and the two saturations parse to finite numbers,
    neither saturation is zero, and Hb * (SaO2 - SvO2) is positive; it is
    then 125 * sqrt (height * weight / 3600) over ten times the difference
    of the two oxygen contents. *)
Theorem co_from_inputs (c : number) :
  co = Some c <->
  exists h w H Sa Sv,
    clampNum (heightCm state) = Some (Fin h) /\
    clampNum (weightKg state) = Some (Fin w) /\
    clampNum (hb state) = Some (Fin H) /\
    clampNum (sao2 state) = Some (Fin Sa) /\
    clampNum (svo2 state) = Some (Fin Sv) /\
    0 < h * w /\ Sa <> 0 /\ Sv <> 0 /\ 0 < H * (Sa - Sv) /\
    c = Fin (125 * sqrt (h * w / 3600)
             / ((134 / 100 * H * (Sa / 100) - 134 / 100 * H * (Sv / 100))
                * 10)).
Proof.
  split.
  - intros E.
    apply co_inv_full in E as (r & ra & rb & Eb & Hr & _ & Ea & Ev & Hd & ->).
    apply bsa_finite_inv in Eb as (h & w & Eh & Ew & Hp & -> & _).
    apply caO2_inv in Ea as (H & Sa & EH & ESa & HH & HSa & [= ->]).
    apply cvO2_inv in Ev as (H' & Sv & EH' & ESv & _ & HSv & [= ->]).
    rewrite EH in EH'. injection EH' as <-.
    exists h, w, H, Sa, Sv. repeat split; try assumption.
    replace (H * (Sa - Sv))
      with ((134 / 100 * H * (Sa / 100) - 134 / 100 * H * (Sv / 100))
            * (10000 / 134)) by field.
    apply Rmult_lt_0_compat; lra.
  - intros (h & w & H & Sa & Sv & Eh & Ew & EH & ESa & ESv
            & Hp & HSa & HSv & Hd & ->).
    assert (HH : H <> 0) by (intros ->; rewrite Rmult_0_l in Hd; lra).
    destruct (bsa_positive h w Eh Ew Hp) as [Eb Hs].
    pose proof (vo2_value StringToNumber state _ Eb ltac:(lra)) as Ev.
    pose proof (caO2_value StringToNumber state H Sa EH ESa HH HSa) as Ea.
    pose proof (cvO2_value StringToNumber state H Sv EH ESv HH HSv) as Ec.
    rewrite (co_value StringToNumber state _ _ _ Ev Ea Ec).
    assert (0 < 134 / 100 * H * (Sa / 100) - 134 / 100 * H * (Sv / 100)).
    { replace (134 / 100 * H * (Sa / 100) - 134 / 100 * H * (Sv / 100))
        with (H * (Sa - Sv) * (134 / 10000)) by field.
      apply Rmult_lt_0_compat; lra. }
    now real_tests.
Qed.

(** X13.  The cardiac index is present exactly when the cardiac output is;
    it is then CO / BSA, which is 125 / ((CaO2 - CvO2) * 10): it does not
    depend on the height or the weight that were entered. *)
Theorem ci_cases :
  (ci = undefined <-> co = undefined) /\
  (forall c r, co = Some (Fin c) -> bsa = Some (Fin r) ->
     ci = Some (Fin (c / r))) /\
  (forall a b, caO2 = Some (Fin a) -> cvO2 = Some (Fin b) ->
     co <> undefined ->
     ci = Some (Fin (125 / ((a - b) * 10)))).
Proof.
  repeat match goal with |- _ /\ _ => split end.
  - split.
    + intros E. destruct co as [c|] eqn:Ec; [|reflexivity].
      apply co_inv_full in Ec as Hc.
      destruct Hc as (r & ra & rb & Eb & Hr & _ & _ & _ & _ & ->).
      rewrite (ci_value _ r Ec Eb) in E by lra. discriminate.
    + intros E. unfold Hemo.ci. now rewrite E.
  - intros c r Ec Eb. apply co_inv_full in Ec as Hc.
    destruct Hc as (r' & ra & rb & Eb' & Hr & _ & _ & _ & _ & _).
    rewrite Eb in Eb'. injection Eb' as <-.
    apply ci_value; (assumption || lra).
  - intros a b Ea Eb Hc. destruct co as [c|] eqn:Ec; [|now elim Hc].
    apply co_inv_full in Ec as Hc'.
    destruct Hc' as (r & ra & rb & Er & Hr & _ & Ea' & Eb' & Hd & ->).
    rewrite Ea in Ea'. rewrite Eb in Eb'.
    injection Ea' as <-. injection Eb' as <-.
    rewrite (ci_value _ r Ec Er) by lra.
    f_equal. f_equal. field. lra.
Qed.

(** X14.  The stroke volume is CO * 1000 / HR for a present cardiac output
    and a heart rate that parses to a finite number other than zero; it is
    absent exactly when the cardiac output is absent or the heart rate is
    absent or zero. *)
Theorem sv_cases :
  (forall c H, co = Some (Fin c) -> clampNum (hr state) = Some (Fin H) ->
     H <> 0 -> sv = Some (Fin (c * 1000 / H))) /\
  (sv = undefined <->
   co = undefined \/ clampNum (hr state) = undefined \/
   clampNum (hr state) = Some (Fin 0)).
Proof.
  split.
  - intros c H Ec EH HH. apply co_inv in Ec as Hc.
    destruct Hc as (c' & [= <-] & Hc). apply sv_value; (assumption || lra).
  - split.
    + intros E. destruct co as [c|] eqn:Ec; [|now left]. right.
      apply not_clampNum_true.
      destruct (Js.not (clampNum (hr state))) eqn:N; [reflexivity|].
      apply not_clampNum_false in N as (H & EH & HH).
      apply co_inv in Ec as Hc. destruct Hc as (rc & -> & Hrc).
      rewrite (sv_value rc H Ec EH) in E by lra. discriminate.
    + intros [E | E]; unfold Hemo.sv; cbv zeta.
      * now rewrite E.
      * apply not_clampNum_true in E. now rewrite E, orb_true_r.
Qed.

(** X15.  The systemic resistance is 80 * (MAP - CVP) / CO when MAP and the
    cardiac output are present and the CVP field parses to a finite number,
    zero and negative values included; it is absent exactly when MAP or the
    cardiac output is absent or the CVP field does not parse to a finite
    number. *)
Theorem svr_cases :
  (forall m c x, map = Some (Fin m) -> co = Some (Fin c) ->
     clampNum (cvp state) = Some (Fin x) ->
     svr = Some (Fin (80 * (m - x) / c))) /\
  (svr = undefined <->
   map = undefined \/ co = undefined \/ clampNum (cvp state) = undefined).
Proof.
  split.
  - intros m c x Em Ec Ex. apply co_inv in Ec as Hc.
    destruct Hc as (c' & [= <-] & Hc). apply svr_value; (assumption || lra).
  - split.
    + intros E.
      destruct map as [m|] eqn:Em; [|now left].
      destruct co as [c|] eqn:Ec; [|now right; left].
      destruct (clampNum (cvp state)) as [x|] eqn:Ex; [|now right; right].
      apply map_inv in Em as Hm. destruct Hm as (s & d & _ & _ & _ & _ & ->).
      apply co_inv in Ec as Hc. destruct Hc as (rc & -> & Hrc).
      apply clampNum_finite in Ex as Hx. destruct Hx as (rx & -> & _).
      rewrite (svr_value _ rc rx Em Ec Ex) in E by lra. discriminate.
    + intros [E | [E | E]]; unfold Hemo.svr; cbv zeta; rewrite E;
        now rewrite ?orb_true_r.
Qed.

(** X16.  The two pulmonary resistances share one guard, so one is absent
    exactly when the other is; when the PCWP text converts to a finite
    number the value in dyn.s.cm-5 is 80 times the value in Wood units,
    which is (mPAP - PCWP) / CO. *)
Theorem pvr_units :
  (pvr = undefined <-> pvrWU = undefined) /\
  (forall x u, Number (pcwp state) = Fin x -> pvrWU = Some u ->
     exists p c,
       mPAP = Some (Fin p) /\ co = Some (Fin c) /\
       u = Fin ((p - x) / c) /\ pvr = Some (Fin (80 * ((p - x) / c)))).
Proof.
  split.
  - unfold Hemo.pvr, Hemo.pvrWU.
    destruct (_ || _); split; intros; try reflexivity; discriminate.
  - intros x u Ex Eu.
    apply pvrWU_inv in Eu as (p & c & s & Ep & Ec & Hc & Es & -> & ->).
    rewrite Es in Ex. simpl in Ex. rewrite Ex.
    exists p, c. repeat split; try assumption.
    + simpl. now real_tests.
    + simpl. real_tests. f_equal. f_equal. field. lra.
Qed.


(** X18.  The mean pulmonary pressure and the two oxygen contents: each is
    given by its formula when both of its fields parse to finite numbers
    other than zero, and is absent exactly when one of the two is absent or
    zero. *)
Theorem two_field_memos :
  (forall ps pd,
      clampNum (pasp state) = Some (Fin ps) ->
      clampNum (padp state) = Some (Fin pd) -> ps <> 0 -> pd <> 0 ->
      mPAP = Some (Fin ((ps + 2 * pd) / 3))) /\
  (mPAP = undefined <->
   clampNum (pasp state) = undefined \/ clampNum (pasp state) = Some (Fin 0) \/
   clampNum (padp state) = undefined \/ clampNum (padp state) = Some (Fin 0))
  /\
  (forall H Sa,
      clampNum (hb state) = Some (Fin H) ->
      clampNum (sao2 state) = Some (Fin Sa) -> H <> 0 -> Sa <> 0 ->
      caO2 = Some (Fin (134 / 100 * H * (Sa / 100)))) /\
  (caO2 = undefined <->
   clampNum (hb state) = undefined \/ clampNum (hb state) = Some (Fin 0) \/
   clampNum (sao2 state) = undefined \/ clampNum (sao2 state) = Some (Fin 0))
  /\
  (forall H Sv,
      clampNum (hb state) = Some (Fin H) ->
      clampNum (svo2 state) = Some (Fin Sv) -> H <> 0 -> Sv <> 0 ->
      cvO2 = Some (Fin (134 / 100 * H * (Sv / 100)))) /\
  (cvO2 = undefined <->
   clampNum (hb state) = undefined \/ clampNum (hb state) = Some (Fin 0) \/
   clampNum (svo2 state) = undefined \/ clampNum (svo2 state) = Some (Fin 0)).
Proof.
  repeat match goal with |- _ /\ _ => split end.
  - apply mPAP_value.
  - rewrite <- two_fields_fail. unfold Hemo.mPAP; cbv zeta.
    destruct (Js.not _ || Js.not _); split; intros; try reflexivity;
      discriminate.
  - apply caO2_value.
  - rewrite <- two_fields_fail. unfold Hemo.caO2; cbv zeta.
    destruct (Js.not _ || Js.not _); split; intros; try reflexivity;
      discriminate.
  - apply cvO2_value.
  - rewrite <- two_fields_fail. unfold Hemo.cvO2; cbv zeta.
    destruct (Js.not _ || Js.not _); split; intros; try reflexivity;
      discriminate.
Qed.

(** X19.  A body surface area that is [NaN] goes no further: the oxygen
    consumption is absent exactly when the body surface area is absent or
    [NaN], and is 125 times it otherwise; under a [NaN] body surface area
    every memo that depends on the cardiac output is absent, and the body
    surface area itself is rendered as the dash. *)
Theorem bsa_NaN_stops :
  (vo2 = undefined <-> bsa = undefined \/ bsa = Some NaN) /\
  (forall r, bsa = Some (Fin r) -> vo2 = Some (Fin (125 * r))) /\
  (bsa = Some NaN ->
   toFixedOrDash bsa 2 = Dash /\
   vo2 = undefined /\ co = undefined /\ ci = undefined /\
   sv = undefined /\ svr = undefined /\ pvr = undefined /\
   pvrWU = undefined).
Proof.
  assert (V : bsa = undefined \/ bsa = Some NaN -> vo2 = undefined).
  { unfold Hemo.vo2. now intros [-> | ->]. }
  repeat match goal with |- _ /\ _ => split end.
  - split; [|exact V].
    intros E. destruct bsa as [b|] eqn:Eb; [|now left]. right.
    destruct (bsa_number_inv b Eb) as [-> | (r & -> & Hr)]; [reflexivity|].
    rewrite (vo2_value StringToNumber state r Eb) in E by lra. discriminate.
  - intros r Eb. apply bsa_finite_inv in Eb as Hb.
    destruct Hb as (_ & _ & _ & _ & _ & _ & Hr).
    apply vo2_value; (assumption || lra).
  - intros E.
    pose proof (V (or_intror E)) as Ev.
    destruct (absence_propagates StringToNumber state)
      as (_ & _ & _ & _ & _ & _ & Pco & Pci & Psv & Psvr & Ppvr).
    pose proof (Pco (or_introl Ev)) as Ec.
    destruct (Ppvr (or_intror (or_introl Ec))) as [E1 E2].
    rewrite E. repeat split; try assumption.
    + now apply Pci; left.
    + now apply Psv; left.
    + now apply Psvr; right; left.
Qed.

End HemoChain.

(** ** Evaluations for the memos *)

Lemma intLiteral_negative :
  intLiteral "-70" = Fin (-70) /\ intLiteral "-170" = Fin (-170).
Proof. split; reflexivity. Qed.

Lemma negative_weight_bsa :
  Hemo.bsa intLiteral (bedsideSized (Some "170"%string) (Some "-70"%string))
  = Some NaN.
Proof.
  apply (bsa_opposite_signs intLiteral _ 170 (-70)); reflexivity || lra.
Qed.

Lemma bsa_cases_witness :
  Hemo.bsa intLiteral (bedsideSized (Some "170"%string) (Some "-70"%string))
    = Some NaN /\
  (Hemo.bsa intLiteral (bedsideSized (Some "-170"%string) (Some "-70"%string))
     = Some (Fin (sqrt (-170 * -70 / 3600))) /\
   0 < sqrt (-170 * -70 / 3600)).
Proof.
  split.
  - apply (proj1 (bsa_cases intLiteral
                    (bedsideSized (Some "170"%string) (Some "-70"%string)))
             170 (-70));
      reflexivity || lra.
  - apply (proj1 (bsa_cases intLiteral
                    (bedsideSized (Some "-170"%string) (Some "-70"%string)))
             (-170) (-70));
      reflexivity || lra.
Defined.

Lemma mean_pressure_bounds_witness :
  exists r, Fin (80 + (120 - 80) / 3) = Fin r /\ 80 <= r <= 120.
Proof.
  apply (proj1 (mean_pressure_bounds intLiteral
                  (bedside (Some "120"%string) None None)) 120 80);
    try reflexivity; try lra.
  apply map_value; reflexivity || lra.
Defined.


Lemma co_from_inputs_witness :
  Hemo.co intLiteral (bedside None None None)
  = Some (Fin (125 * sqrt (170 * 70 / 3600)
               / ((134 / 100 * 14 * (98 / 100) - 134 / 100 * 14 * (70 / 100))
                  * 10))).
Proof.
  apply (co_from_inputs intLiteral (bedside None None None)).
  exists 170, 70, 14, 98, 70.
  repeat split; try reflexivity; lra.
Defined.

Lemma ci_cases_witness :
  Hemo.ci intLiteral (bedside None None None)
  = Some (Fin (125 / ((134 / 100 * 14 * (98 / 100)
                       - 134 / 100 * 14 * (70 / 100)) * 10))).
Proof.
  apply (proj2 (proj2 (ci_cases intLiteral (bedside None None None)))).
  - apply bedside_caO2.
  - apply bedside_cvO2.
  - rewrite bedside_co. discriminate.
Defined.

Lemma sv_cases_witness :
  Hemo.sv intLiteral (bedside None None None)
  = Some (Fin (125 * sqrt (170 * 70 / 3600)
               / ((134 / 100 * 14 * (98 / 100) - 134 / 100 * 14 * (70 / 100))
                  * 10)
               * 1000 / 80)).
Proof.
  apply (proj1 (sv_cases intLiteral (bedside None None None))).
  - apply bedside_co.
  - reflexivity.
  - lra.
Defined.

Lemma svr_cases_witness :
  Hemo.svr intLiteral (bedside (Some "120"%string) (Some "8"%string) None)
  = Some (Fin (80 * (80 + (120 - 80) / 3 - 8)
               / (125 * sqrt (170 * 70 / 3600)
                  / ((134 / 100 * 14 * (98 / 100)
                      - 134 / 100 * 14 * (70 / 100)) * 10)))).
Proof.
  apply (proj1 (svr_cases intLiteral
                  (bedside (Some "120"%string) (Some "8"%string) None))).
  - apply map_value; reflexivity || lra.
  - apply bedside_co.
  - reflexivity.
Defined.

Lemma bedside_co_positive :
  0 < 125 * sqrt (170 * 70 / 3600)
      / ((134 / 100 * 14 * (98 / 100) - 134 / 100 * 14 * (70 / 100)) * 10).
Proof.
  apply Rdiv_pos; [|lra].
  assert (0 < sqrt (170 * 70 / 3600)) by (apply sqrt_lt_R0; lra). lra.
Qed.

Lemma bedside_pvrWU :
  Hemo.pvrWU intLiteral (bedside None None (Some "12"%string))
  = Some (Fin (((40 + 2 * 20) / 3 - 12)
               / (125 * sqrt (170 * 70 / 3600)
                  / ((134 / 100 * 14 * (98 / 100)
                      - 134 / 100 * 14 * (70 / 100)) * 10)))).
Proof.
  pose proof bedside_co_positive as Hc.
  destruct (pvr_value intLiteral (bedside None None (Some "12"%string))
              _ _ "12" (bedside_mPAP _ _ _) (bedside_co _ _ _)
              ltac:(lra) eq_refl) as [_ ->].
  change (intLiteral "12") with (Fin 12). simpl. now real_tests.
Qed.

Lemma pvr_units_witness :
  exists p c,
    Hemo.mPAP intLiteral (bedside None None (Some "12"%string))
      = Some (Fin p) /\
    Hemo.co intLiteral (bedside None None (Some "12"%string))
      = Some (Fin c) /\
    Fin (((40 + 2 * 20) / 3 - 12)
         / (125 * sqrt (170 * 70 / 3600)
            / ((134 / 100 * 14 * (98 / 100)
                - 134 / 100 * 14 * (70 / 100)) * 10)))
      = Fin ((p - 12) / c) /\
    Hemo.pvr intLiteral (bedside None None (Some "12"%string))
      = Some (Fin (80 * ((p - 12) / c))).
Proof.
  apply (proj2 (pvr_units intLiteral (bedside None None (Some "12"%string)))).
  - reflexivity.
  - apply bedside_pvrWU.
Defined.


Lemma two_field_memos_witness :
  Hemo.mPAP intLiteral (bedside None None None)
  = Some (Fin ((40 + 2 * 20) / 3)).
Proof.
  apply (proj1 (two_field_memos intLiteral (bedside None None None)));
    reflexivity || lra.
Defined.

Lemma bsa_NaN_stops_witness :
  toFixedOrDash
    (Hemo.bsa intLiteral
       (bedsideSized (Some "170"%string) (Some "-70"%string))) 2 = Dash /\
  Hemo.vo2 intLiteral (bedsideSized (Some "170"%string) (Some "-70"%string))
    = undefined /\
  Hemo.co intLiteral (bedsideSized (Some "170"%string) (Some "-70"%string))
    = undefined /\
  Hemo.ci intLiteral (bedsideSized (Some "170"%string) (Some "-70"%string))
    = undefined /\
  Hemo.sv intLiteral (bedsideSized (Some "170"%string) (Some "-70"%string))
    = undefined /\
  Hemo.svr intLiteral (bedsideSized (Some "170"%string) (Some "-70"%string))
    = undefined /\
  Hemo.pvr intLiteral (bedsideSized (Some "170"%string) (Some "-70"%string))
    = undefined /\
  Hemo.pvrWU intLiteral (bedsideSized (Some "170"%string) (Some "-70"%string))
    = undefined.
Proof.
  apply (proj2 (proj2 (bsa_NaN_stops intLiteral
                         (bedsideSized (Some "170"%string)
                            (Some "-70"%string))))).
  apply negative_weight_bsa.
Defined.
